(** * Agno Smart Assistant: agent assembly and configuration

    A shallow embedding of the Python backend (config/settings.py,
    config/constants.py, config/model_provider.py, agents/*.py,
    core/runtime.py, load_knowledge.py) together with the properties of
    its specification.

    Conventions of the embedding.
    - A Python [str] is the Rocq [string] of its UTF-8 bytes.  Slicing
      counts characters, not bytes; the case mapping of ASCII text is
      written out, and on any other text it is Python's own, taken as a
      parameter ([unicode_lower], [unicode_upper]).
    - A function that may raise returns [exn + A]; code that also reads or
      writes process state (the environment, the cached configuration,
      standard output) lives in the monad [M].
    - A keyword argument with default [None] that a call leaves out is
      [None] in the corresponding record of options.
    - Classes of the agno library (Agent, SqliteDb, MCPTools, ...) are
      records of the keyword arguments the backend passes to them. *)

From stdpp Require Import base option list strings pretty gmap.
From Stdlib Require Import ZArith Lia Ascii.

Local Open Scope string_scope.

(* ===================================================================== *)
(** ** Python values used by the backend                                  *)
(* ===================================================================== *)

(** Exceptions.  [ValueError] is the only class the backend raises itself;
    [Exception] stands for any other subclass of Python's [Exception]
    (named by its class); [KeyboardInterrupt] and [SystemExit] derive from
    [BaseException] only, so [except Exception] does not catch them. *)
Inductive exn : Type :=
  | ValueError (msg : string)
  | Exception (cls msg : string)
  | KeyboardInterrupt
  | SystemExit (code : Z).

(** [isinstance(e, Exception)]. *)
Definition is_Exception (e : exn) : bool :=
  match e with
  | ValueError _ | Exception _ _ => true
  | KeyboardInterrupt | SystemExit _ => false
  end.

(** [str(e)] as used by the f-strings that report an exception. *)
Definition exn_str (e : exn) : string :=
  match e with
  | ValueError msg | Exception _ msg => msg
  | KeyboardInterrupt => ""
  | SystemExit code => pretty code
  end.

(** The newline character of the message literals. *)
Definition nl : string := String (ascii_of_nat 10) EmptyString.

(** Truthiness of a string: [bool(s)]. *)
Definition truthy (s : string) : bool :=
  match s with
  | EmptyString => false
  | String _ _ => true
  end.

(** [a or b] on strings. *)
Definition str_or (a b : string) : string := if truthy a then a else b.

(** [a or b] where [a] is an optional string argument ([None] is falsy). *)
Definition opt_or (a : option string) (b : string) : string :=
  match a with
  | Some s => str_or s b
  | None => b
  end.

(** Whether a text is pure ASCII: every byte is below 128. *)
Fixpoint is_ascii (s : string) : bool :=
  match s with
  | EmptyString => true
  | String c s' => (nat_of_ascii c <? 128)%nat && is_ascii s'
  end.

Definition lower_ascii (c : ascii) : ascii :=
  let n := nat_of_ascii c in
  if (65 <=? n)%nat && (n <=? 90)%nat then ascii_of_nat (n + 32) else c.

(** [s.lower()] on ASCII text: A-Z become a-z. *)
Fixpoint lower_text (s : string) : string :=
  match s with
  | EmptyString => EmptyString
  | String c s' => String (lower_ascii c) (lower_text s')
  end.

(** [s.lower()].  On ASCII text Python maps A-Z to a-z; on any other text
    the result is that of Python's Unicode case mapping, which the
    development takes as the parameter [unicode_lower]. *)
Definition lower (unicode_lower : string → string) (s : string) : string :=
  if is_ascii s then lower_text s else unicode_lower s.

(** A byte that continues a UTF-8 character (10xxxxxx). *)
Definition is_continuation (c : ascii) : bool :=
  let n := nat_of_ascii c in (128 <=? n)%nat && (n <=? 191)%nat.

(** [len(s)]: the number of characters, one per byte that is not a
    continuation byte. *)
Fixpoint char_count (s : string) : nat :=
  match s with
  | EmptyString => 0
  | String c s' => (if is_continuation c then 0 else 1) + char_count s'
  end.

(** [s[-n:]] for [n > 0]: the last [n] characters, or all of [s] when it
    has fewer.  Going through the text, a suffix is kept whole as soon as
    what follows its first byte holds fewer than [n] characters. *)
Fixpoint slice_last (n : nat) (s : string) : string :=
  match s with
  | EmptyString => EmptyString
  | String c s' => if (char_count s' <? n)%nat then s else slice_last n s'
  end.

(** [c * n] for a one-character string [c]. *)
Fixpoint str_repeat (c : string) (n : nat) : string :=
  match n with
  | O => ""
  | S n' => c ++ str_repeat c n'
  end.

(** The values a configuration dictionary holds. *)
#[warnings="-register-all"]
Inductive pyval : Type :=
  | PStr (s : string)
  | PInt (z : Z)
  | PBool (b : bool)
  | PDict (items : list (string * pyval)).

(** [os.getenv(name, default)] over the process environment. *)
Definition getenv (environ : gmap string string) (name default : string) : string :=
  match environ !! name with
  | Some v => v
  | None => default
  end.

(* ===================================================================== *)
(** ** config/constants.py                                                 *)
(* ===================================================================== *)

Definition APP_NAME := "Agno Smart Assistant".
Definition APP_VERSION := "1.0.0".
Definition APP_DESCRIPTION := "Multi-agent AI assistant powered by Agno".

Definition DEFAULT_DB_FILE := "agno.db".
Definition DEFAULT_VECTOR_DB_FILE := "vector.db".

Definition DEFAULT_MODEL_PROVIDER := "openai".
Definition DEFAULT_MODEL_ID := "gpt-4".

Definition DEFAULT_MCP_URL := "https://docs.agno.com/mcp".

Definition DEFAULT_PORT : Z := 8000.
Definition DEFAULT_HOST := "0.0.0.0".
Definition DEFAULT_LOG_LEVEL := "info".

(** The per-agent dictionaries, with the keys the factories read. *)
Record agent_constants : Type := {
  cfg_name : string;
  cfg_description : string;
  cfg_instructions : list string;
  cfg_db_table : string;
  cfg_show_tool_calls : bool;
  cfg_add_datetime_to_context : bool;
}.

Definition CONVERSATION_AGENT_CONFIG : agent_constants := {|
  cfg_name := "Agno Smart Assistant";
  cfg_description := "Main conversational agent with tool access";
  cfg_instructions := [
    "You are a helpful AI assistant powered by Agno.";
    "You have access to tools and can perform tasks.";
    "Always be concise, clear, and helpful."
  ];
  cfg_db_table := "agno-smart-assistant";
  cfg_show_tool_calls := true;
  cfg_add_datetime_to_context := true;
|}.

Definition RESEARCH_AGENT_CONFIG : agent_constants := {|
  cfg_name := "Research Agent";
  cfg_description := "Specialized agent for research and analysis";
  cfg_instructions := [
    "You are a research specialist.";
    "Help users find, analyze, and synthesize information.";
    "Provide well-structured and detailed responses."
  ];
  cfg_db_table := "research-agent";
  cfg_show_tool_calls := true;
  cfg_add_datetime_to_context := false;
|}.

Definition ASSIST_AGENT_CONFIG : agent_constants := {|
  cfg_name := "Agno Assist";
  cfg_description := "Documentation assistant using RAG for Agno framework questions";
  cfg_instructions := [
    "You help answer questions about the Agno framework.";
    "Search your knowledge before answering the question.";
    "Provide accurate answers grounded in the documentation.";
    "If information is not in the documentation, say so clearly."
  ];
  cfg_db_table := "assist-agent";
  cfg_show_tool_calls := true;
  cfg_add_datetime_to_context := true;
|}.

(* ===================================================================== *)
(** ** config/settings.py: the typed configuration records                *)
(* ===================================================================== *)

Module OpenAIConfig.
Record t : Type := mk { api_key : string }.

Definition from_env (environ : gmap string string) : t :=
  {| api_key := getenv environ "OPENAI_API_KEY" "" |}.
End OpenAIConfig.

Module AnthropicConfig.
Record t : Type := mk { api_key : string }.

Definition from_env (environ : gmap string string) : t :=
  {| api_key := getenv environ "ANTHROPIC_API_KEY" "" |}.
End AnthropicConfig.

Module DatabaseConfig.
Record t : Type := mk { db_file : string; vector_db_file : string }.

Definition from_env (environ : gmap string string) : t :=
  {| db_file := getenv environ "AGNO_DB_FILE" DEFAULT_DB_FILE;
     vector_db_file := getenv environ "VECTOR_DB_FILE" DEFAULT_VECTOR_DB_FILE |}.
End DatabaseConfig.

Module ModelConfig.
Record t : Type := mk { provider : string; model_id : string }.

(** [default_models.get(provider, "gpt-4")]. *)
Definition default_models_get (provider : string) : string :=
  if String.eqb provider "openai" then "gpt-4"
  else if String.eqb provider "anthropic" then "claude-3-5-sonnet-20241022"
  else "gpt-4".

Definition from_env (unicode_lower : string → string)
    (environ : gmap string string) : t :=
  let provider := lower unicode_lower (getenv environ "MODEL_PROVIDER" "openai") in
  let model_id := getenv environ "MODEL_ID" (default_models_get provider) in
  {| provider := provider; model_id := model_id |}.
End ModelConfig.

Module AgentConfig.
Record t : Type := mk { model_id : string; mcp_url : string }.

Definition from_env (environ : gmap string string) : t :=
  {| model_id := getenv environ "AGNO_MODEL_ID" DEFAULT_MODEL_ID;
     mcp_url := getenv environ "AGNO_MCP_URL" DEFAULT_MCP_URL |}.
End AgentConfig.

Module ServerConfig.
Record t : Type := mk {
  host : string;
  port : Z;
  reload : bool;
  log_level : string;
}.

(** [py_int] is Python's [int] on a string, [None] when it raises
    [ValueError]; [str(DEFAULT_PORT)] is the literal ["8000"]. *)
Definition from_env (py_int : string → option Z)
    (unicode_lower : string → string) (environ : gmap string string) : t :=
  let reload_str := lower unicode_lower (getenv environ "RELOAD" "true") in
  let reload :=
    String.eqb reload_str "true" || String.eqb reload_str "1"
    || String.eqb reload_str "yes" in
  let port_str := getenv environ "PORT" "8000" in
  let port :=
    match py_int port_str with
    | Some p => p
    | None => DEFAULT_PORT
    end in
  {| host := getenv environ "HOST" DEFAULT_HOST;
     port := port;
     reload := reload;
     log_level := getenv environ "LOG_LEVEL" DEFAULT_LOG_LEVEL |}.
End ServerConfig.

Module AppConfig.
Record t : Type := mk {
  name : string;
  version : string;
  description : string;
  openai : OpenAIConfig.t;
  anthropic : AnthropicConfig.t;
  model : ModelConfig.t;
  database : DatabaseConfig.t;
  agent : AgentConfig.t;
  server : ServerConfig.t;
}.

Definition no_api_key_message (provider : string) : string :=
  "❌ No API key configured." ++ nl ++
  "   Set either OPENAI_API_KEY or ANTHROPIC_API_KEY" ++ nl ++
  "   Current provider: " ++ provider.

(** The dataclass constructor followed by [__post_init__]: a
    sub-configuration passed as [None] is loaded from the environment,
    then the API keys are validated. *)
Definition init (py_int : string → option Z) (unicode_lower : string → string)
    (environ : gmap string string)
    (openai : option OpenAIConfig.t) (anthropic : option AnthropicConfig.t)
    (model : option ModelConfig.t) (database : option DatabaseConfig.t)
    (agent : option AgentConfig.t) (server : option ServerConfig.t)
    : exn + t :=
  let openai := default (OpenAIConfig.from_env environ) openai in
  let anthropic := default (AnthropicConfig.from_env environ) anthropic in
  let model := default (ModelConfig.from_env unicode_lower environ) model in
  let database := default (DatabaseConfig.from_env environ) database in
  let agent := default (AgentConfig.from_env environ) agent in
  let server := default (ServerConfig.from_env py_int unicode_lower environ) server in
  if negb (truthy (OpenAIConfig.api_key openai))
     && negb (truthy (AnthropicConfig.api_key anthropic))
  then inl (ValueError (no_api_key_message (ModelConfig.provider model)))
  else inr {| name := APP_NAME; version := APP_VERSION;
              description := APP_DESCRIPTION;
              openai := openai; anthropic := anthropic; model := model;
              database := database; agent := agent; server := server |}.

Definition from_env (py_int : string → option Z)
    (unicode_lower : string → string) (environ : gmap string string) : exn + t :=
  init py_int unicode_lower environ
    (Some (OpenAIConfig.from_env environ))
    (Some (AnthropicConfig.from_env environ))
    (Some (ModelConfig.from_env unicode_lower environ))
    (Some (DatabaseConfig.from_env environ))
    (Some (AgentConfig.from_env environ))
    (Some (ServerConfig.from_env py_int unicode_lower environ)).

(** The masked rendering of one API key in [to_dict]. *)
Definition masked (api_key : string) : string :=
  "***" ++ (if truthy api_key then slice_last 4 api_key else "NOT SET").

Definition to_dict (self : t) : pyval :=
  PDict [
    ("app", PDict [
      ("name", PStr (name self));
      ("version", PStr (version self));
      ("description", PStr (description self))
    ]);
    ("model", PDict [
      ("provider", PStr (ModelConfig.provider (model self)));
      ("model_id", PStr (ModelConfig.model_id (model self)))
    ]);
    ("openai", PDict [
      ("api_key", PStr (masked (OpenAIConfig.api_key (openai self))))
    ]);
    ("anthropic", PDict [
      ("api_key", PStr (masked (AnthropicConfig.api_key (anthropic self))))
    ]);
    ("database", PDict [
      ("db_file", PStr (DatabaseConfig.db_file (database self)));
      ("vector_db_file", PStr (DatabaseConfig.vector_db_file (database self)))
    ]);
    ("agent", PDict [
      ("model_id", PStr (AgentConfig.model_id (agent self)));
      ("mcp_url", PStr (AgentConfig.mcp_url (agent self)))
    ]);
    ("server", PDict [
      ("host", PStr (ServerConfig.host (server self)));
      ("port", PInt (ServerConfig.port (server self)));
      ("reload", PBool (ServerConfig.reload (server self)));
      ("log_level", PStr (ServerConfig.log_level (server self)))
    ])
  ].
End AppConfig.

(* ===================================================================== *)
(** ** The agno classes the backend instantiates                          *)
(* ===================================================================== *)

(** Model clients: [OpenAIChat(id=..., api_key=...)] and
    [Claude(id=..., api_key=...)]. *)
Inductive Model : Type :=
  | OpenAIChat (id api_key : string)
  | Claude (id api_key : string).

Module SqliteDb.
Record t : Type := mk {
  db_file : string;
  session_table : option string;
}.
End SqliteDb.

Module MCPTools.
Record t : Type := mk { transport : string; url : string }.
End MCPTools.

(** An element of a [tools] list: an MCP tool set or any other tool object,
    identified by name. *)
Inductive Tool : Type :=
  | MCP (t : MCPTools.t)
  | CustomTool (name : string).

Module OpenAIEmbedder.
Record t : Type := mk { id : string }.
End OpenAIEmbedder.

Inductive SearchType : Type := vector | keyword | hybrid.

Module LanceDb.
Record t : Type := mk {
  uri : string;
  table_name : string;
  search_type : SearchType;
  embedder : OpenAIEmbedder.t;
}.
End LanceDb.

Module Knowledge.
Record t : Type := mk { vector_db : LanceDb.t }.
End Knowledge.

(** An [Agent] object: the keyword arguments of its constructor ([None]
    for a keyword the call does not pass) and the attributes the builder
    may set on it afterwards. *)
Module Agent.
Record t : Type := mk {
  id : option string;
  name : string;
  model : Model;
  db : SqliteDb.t;
  tools : option (list Tool);
  knowledge : option Knowledge.t;
  description : string;
  instructions : list string;
  add_history_to_context : option bool;
  num_history_runs : option Z;
  add_datetime_to_context : option bool;
  markdown : option bool;
  add_session_state_to_context : option bool;
  add_dependencies_to_context : option bool;
  add_memories_to_context : option bool;
  (* attributes assigned after construction *)
  vector_db : option LanceDb.t;
  knowledge_base : option Knowledge.t;
  embeddings : option OpenAIEmbedder.t;
  users : option (list string);
  memory_config : option (list (string * string));
}.
End Agent.

Module CORSMiddleware.
Record t : Type := mk {
  allow_origins : list string;
  allow_credentials : bool;
  allow_methods : list string;
  allow_headers : list string;
}.
End CORSMiddleware.

(** An entry of a FastAPI application's middleware list: a CORS
    middleware, or any other middleware, identified by name. *)
Inductive Middleware : Type :=
  | CORS (c : CORSMiddleware.t)
  | OtherMiddleware (name : string).

(** The [AgentOS] runtime, together with the middleware list of the
    FastAPI application that [runtime.get_app()] hands to
    [create_runtime]. *)
Module AgentOS.
Record t : Type := mk {
  name : string;
  description : string;
  version : string;
  agents : list Agent.t;
  middleware : list Middleware;
}.
End AgentOS.

(* ===================================================================== *)
(** ** Process state and the monad of the backend                         *)
(* ===================================================================== *)

(** What the backend reads and writes while it assembles the agents. *)
Record World : Type := mkWorld {
  environ : gmap string string;         (* os.environ *)
  _config : option AppConfig.t;         (* settings._config, the singleton *)
  rag_fault : option exn;               (* what constructing the LanceDb
                                           knowledge base raises, if anything *)
  stdout : list string;                 (* lines printed so far *)
  agents_constructed : nat;             (* number of Agent(...) calls so far *)
}.

Definition M (A : Type) : Type := World → (exn + A) * World.

#[export] Instance M_ret : MRet M := λ A x w, (inr x, w).

#[export] Instance M_bind : MBind M := λ A B f m w,
  match m w with
  | (inr a, w') => f a w'
  | (inl e, w') => (inl e, w')
  end.

Definition raise {A : Type} (e : exn) : M A := λ w, (inl e, w).

(** [try: body  except Exception as e: handler e]. *)
Definition try_except_Exception {A : Type} (body : M A) (handler : exn → M A) : M A :=
  λ w,
    match body w with
    | (inl e, w') => if is_Exception e then handler e w' else (inl e, w')
    | r => r
    end.

(** The world after one more line has been printed. *)
Definition printed_line (line : string) (w : World) : World :=
  mkWorld (environ w) (_config w) (rag_fault w) (stdout w ++ [line])
          (agents_constructed w).

Definition print (line : string) : M unit := λ w, (inr tt, printed_line line w).

Definition read_config_global : M (option AppConfig.t) := λ w, (inr (_config w), w).

Definition write_config_global (c : option AppConfig.t) : M unit := λ w,
  (inr tt, mkWorld (environ w) c (rag_fault w) (stdout w) (agents_constructed w)).

Definition read_environ : M (gmap string string) := λ w, (inr (environ w), w).

Definition lift_result {A : Type} (r : exn + A) : M A := λ w, (r, w).

(** The world after one more [Agent] object has been constructed. *)
Definition one_more_agent (w : World) : World :=
  mkWorld (environ w) (_config w) (rag_fault w) (stdout w)
          (S (agents_constructed w)).

(** The [Agent(...)] constructor. *)
Definition Agent_new (a : Agent.t) : M Agent.t := λ w, (inr a, one_more_agent w).

(** [Knowledge(vector_db=LanceDb(...))]: the library constructors either
    build the object or raise the fault the world holds. *)
Definition Knowledge_new (vdb : LanceDb.t) : M Knowledge.t := λ w,
  match rag_fault w with
  | Some e => (inl e, w)
  | None => (inr (Knowledge.mk vdb), w)
  end.

(* ===================================================================== *)
(** ** agents/base_agent.py: arguments of [BaseAgentBuilder.build]         *)
(* ===================================================================== *)

(** The required parameters. *)
Module Required.
Record t : Type := mk {
  name : string;
  description : string;
  instructions : list string;
  db_table : string;
}.
End Required.

(** The optional parameters; [None] is an argument the call leaves out
    (for the three flags, whose default is [True], as for the others,
    whose default is [None]). *)
Module Overrides.
Record t : Type := mk {
  model : option Model;
  db : option SqliteDb.t;
  tools : option (list Tool);
  users : option (list string);
  vector_db : option LanceDb.t;
  knowledge_base : option Knowledge.t;
  embeddings : option OpenAIEmbedder.t;
  add_session_state_to_context : option bool;
  add_dependencies_to_context : option bool;
  add_memories_to_context : option bool;
  memory_config : option (list (string * string));
}.

(** A call that passes the required parameters only. *)
Definition none : t :=
  mk None None None None None None None None None None None.
End Overrides.

(** [agent.vector_db = v]. *)
Definition set_vector_db (agent : Agent.t) (v : LanceDb.t) : Agent.t :=
  {|
     Agent.id := Agent.id agent;
     Agent.name := Agent.name agent;
     Agent.model := Agent.model agent;
     Agent.db := Agent.db agent;
     Agent.tools := Agent.tools agent;
     Agent.knowledge := Agent.knowledge agent;
     Agent.description := Agent.description agent;
     Agent.instructions := Agent.instructions agent;
     Agent.add_history_to_context := Agent.add_history_to_context agent;
     Agent.num_history_runs := Agent.num_history_runs agent;
     Agent.add_datetime_to_context := Agent.add_datetime_to_context agent;
     Agent.markdown := Agent.markdown agent;
     Agent.add_session_state_to_context := Agent.add_session_state_to_context agent;
     Agent.add_dependencies_to_context := Agent.add_dependencies_to_context agent;
     Agent.add_memories_to_context := Agent.add_memories_to_context agent;
     Agent.vector_db := Some v;
     Agent.knowledge_base := Agent.knowledge_base agent;
     Agent.embeddings := Agent.embeddings agent;
     Agent.users := Agent.users agent;
     Agent.memory_config := Agent.memory_config agent
  |}.

(** [agent.knowledge_base = v]. *)
Definition set_knowledge_base (agent : Agent.t) (v : Knowledge.t) : Agent.t :=
  {|
     Agent.id := Agent.id agent;
     Agent.name := Agent.name agent;
     Agent.model := Agent.model agent;
     Agent.db := Agent.db agent;
     Agent.tools := Agent.tools agent;
     Agent.knowledge := Agent.knowledge agent;
     Agent.description := Agent.description agent;
     Agent.instructions := Agent.instructions agent;
     Agent.add_history_to_context := Agent.add_history_to_context agent;
     Agent.num_history_runs := Agent.num_history_runs agent;
     Agent.add_datetime_to_context := Agent.add_datetime_to_context agent;
     Agent.markdown := Agent.markdown agent;
     Agent.add_session_state_to_context := Agent.add_session_state_to_context agent;
     Agent.add_dependencies_to_context := Agent.add_dependencies_to_context agent;
     Agent.add_memories_to_context := Agent.add_memories_to_context agent;
     Agent.vector_db := Agent.vector_db agent;
     Agent.knowledge_base := Some v;
     Agent.embeddings := Agent.embeddings agent;
     Agent.users := Agent.users agent;
     Agent.memory_config := Agent.memory_config agent
  |}.

(** [agent.embeddings = v]. *)
Definition set_embeddings (agent : Agent.t) (v : OpenAIEmbedder.t) : Agent.t :=
  {|
     Agent.id := Agent.id agent;
     Agent.name := Agent.name agent;
     Agent.model := Agent.model agent;
     Agent.db := Agent.db agent;
     Agent.tools := Agent.tools agent;
     Agent.knowledge := Agent.knowledge agent;
     Agent.description := Agent.description agent;
     Agent.instructions := Agent.instructions agent;
     Agent.add_history_to_context := Agent.add_history_to_context agent;
     Agent.num_history_runs := Agent.num_history_runs agent;
     Agent.add_datetime_to_context := Agent.add_datetime_to_context agent;
     Agent.markdown := Agent.markdown agent;
     Agent.add_session_state_to_context := Agent.add_session_state_to_context agent;
     Agent.add_dependencies_to_context := Agent.add_dependencies_to_context agent;
     Agent.add_memories_to_context := Agent.add_memories_to_context agent;
     Agent.vector_db := Agent.vector_db agent;
     Agent.knowledge_base := Agent.knowledge_base agent;
     Agent.embeddings := Some v;
     Agent.users := Agent.users agent;
     Agent.memory_config := Agent.memory_config agent
  |}.

(** [agent.users = v]. *)
Definition set_users (agent : Agent.t) (v : list string) : Agent.t :=
  {|
     Agent.id := Agent.id agent;
     Agent.name := Agent.name agent;
     Agent.model := Agent.model agent;
     Agent.db := Agent.db agent;
     Agent.tools := Agent.tools agent;
     Agent.knowledge := Agent.knowledge agent;
     Agent.description := Agent.description agent;
     Agent.instructions := Agent.instructions agent;
     Agent.add_history_to_context := Agent.add_history_to_context agent;
     Agent.num_history_runs := Agent.num_history_runs agent;
     Agent.add_datetime_to_context := Agent.add_datetime_to_context agent;
     Agent.markdown := Agent.markdown agent;
     Agent.add_session_state_to_context := Agent.add_session_state_to_context agent;
     Agent.add_dependencies_to_context := Agent.add_dependencies_to_context agent;
     Agent.add_memories_to_context := Agent.add_memories_to_context agent;
     Agent.vector_db := Agent.vector_db agent;
     Agent.knowledge_base := Agent.knowledge_base agent;
     Agent.embeddings := Agent.embeddings agent;
     Agent.users := Some v;
     Agent.memory_config := Agent.memory_config agent
  |}.

(** [agent.memory_config = v]. *)
Definition set_memory_config (agent : Agent.t) (v : list (string * string)) : Agent.t :=
  {|
     Agent.id := Agent.id agent;
     Agent.name := Agent.name agent;
     Agent.model := Agent.model agent;
     Agent.db := Agent.db agent;
     Agent.tools := Agent.tools agent;
     Agent.knowledge := Agent.knowledge agent;
     Agent.description := Agent.description agent;
     Agent.instructions := Agent.instructions agent;
     Agent.add_history_to_context := Agent.add_history_to_context agent;
     Agent.num_history_runs := Agent.num_history_runs agent;
     Agent.add_datetime_to_context := Agent.add_datetime_to_context agent;
     Agent.markdown := Agent.markdown agent;
     Agent.add_session_state_to_context := Agent.add_session_state_to_context agent;
     Agent.add_dependencies_to_context := Agent.add_dependencies_to_context agent;
     Agent.add_memories_to_context := Agent.add_memories_to_context agent;
     Agent.vector_db := Agent.vector_db agent;
     Agent.knowledge_base := Agent.knowledge_base agent;
     Agent.embeddings := Agent.embeddings agent;
     Agent.users := Agent.users agent;
     Agent.memory_config := Some v
  |}.

(** The world after the assist agent has reported on its knowledge base. *)
Definition assist_reported (w : World) : World :=
  match rag_fault w with
  | Some e =>
      printed_line "[INFO] Creating assist agent WITHOUT RAG (basic mode)"
        (printed_line ("[WARNING] Could not create knowledge base: " ++ exn_str e) w)
  | None =>
      printed_line "[INFO] Assist agent created with RAG enabled (knowledge base ready)" w
  end.

Section Backend.

(** Python's [int] on strings ([None] when it raises [ValueError]). *)
Variable py_int : string → option Z.

(** Python's [str.lower] on text that is not pure ASCII. *)
Variable unicode_lower : string → string.

(** The middleware the application of [runtime.get_app()] carries before
    [create_runtime] adds its own. *)
Variable agno_middleware : list Middleware.

(* --------------------------------------------------------------------- *)
(** *** config/settings.py: the singleton accessor                        *)
(* --------------------------------------------------------------------- *)

Definition get_config : M AppConfig.t :=
  cached ← read_config_global;
  match cached with
  | Some c => mret c
  | None =>
      env ← read_environ;
      c ← lift_result (AppConfig.from_env py_int unicode_lower env);
      write_config_global (Some c);;
      mret c
  end.

Definition reset_config : M unit := write_config_global None.

(* --------------------------------------------------------------------- *)
(** *** config/model_provider.py                                          *)
(* --------------------------------------------------------------------- *)

Definition unsupported_provider_message (final_provider : string) : string :=
  "❌ Unsupported provider: " ++ final_provider ++ nl ++
  "   Supported: 'openai', 'anthropic'".

Definition get_model (provider model_id : option string) : M Model :=
  config ← get_config;
  let final_provider := opt_or provider (ModelConfig.provider (AppConfig.model config)) in
  let final_model_id := opt_or model_id (ModelConfig.model_id (AppConfig.model config)) in
  if String.eqb final_provider "openai" then
    mret (OpenAIChat final_model_id (OpenAIConfig.api_key (AppConfig.openai config)))
  else if String.eqb final_provider "anthropic" then
    mret (Claude final_model_id (AnthropicConfig.api_key (AppConfig.anthropic config)))
  else
    raise (ValueError (unsupported_provider_message final_provider)).

(** [names.get(final_provider, "Unknown Provider")]. *)
Definition get_provider_name (provider : option string) : M string :=
  config ← get_config;
  let final_provider := opt_or provider (ModelConfig.provider (AppConfig.model config)) in
  mret (if String.eqb final_provider "openai" then "OpenAI ChatGPT"
        else if String.eqb final_provider "anthropic" then "Anthropic Claude"
        else "Unknown Provider").

(* --------------------------------------------------------------------- *)
(** *** agents/base_agent.py                                              *)
(* --------------------------------------------------------------------- *)

Definition build (req : Required.t) (ov : Overrides.t) : M Agent.t :=
  config ← get_config;
  final_model ←
    match Overrides.model ov with
    | Some model => mret model
    | None => get_model None None
    end;
  let final_db :=
    match Overrides.db ov with
    | Some db => db
    | None =>
        SqliteDb.mk (DatabaseConfig.db_file (AppConfig.database config))
                    (Some (Required.db_table req))
    end in
  let final_tools :=
    match Overrides.tools ov with
    | Some tools => tools
    | None => []
    end in
  agent ← Agent_new {|
    Agent.id := None;
    Agent.name := Required.name req;
    Agent.model := final_model;
    Agent.db := final_db;
    Agent.tools := Some final_tools;
    Agent.knowledge := None;
    Agent.description := Required.description req;
    Agent.instructions := Required.instructions req;
    Agent.add_history_to_context := None;
    Agent.num_history_runs := None;
    Agent.add_datetime_to_context := None;
    Agent.markdown := None;
    Agent.add_session_state_to_context :=
      Some (default true (Overrides.add_session_state_to_context ov));
    Agent.add_dependencies_to_context :=
      Some (default true (Overrides.add_dependencies_to_context ov));
    Agent.add_memories_to_context :=
      Some (default true (Overrides.add_memories_to_context ov));
    Agent.vector_db := None;
    Agent.knowledge_base := None;
    Agent.embeddings := None;
    Agent.users := None;
    Agent.memory_config := None
  |};
  let agent :=
    match Overrides.vector_db ov with
    | Some v => set_vector_db agent v
    | None => agent
    end in
  let agent :=
    match Overrides.knowledge_base ov with
    | Some v => set_knowledge_base agent v
    | None => agent
    end in
  let agent :=
    match Overrides.embeddings ov with
    | Some v => set_embeddings agent v
    | None => agent
    end in
  let agent :=
    match Overrides.users ov with
    | Some v => set_users agent v
    | None => agent
    end in
  let agent :=
    match Overrides.memory_config ov with
    | Some v => set_memory_config agent v
    | None => agent
    end in
  mret agent.

(* --------------------------------------------------------------------- *)
(** *** agents/conversation_agent.py                                      *)
(* --------------------------------------------------------------------- *)

Definition create_conversation_agent : M Agent.t :=
  config ← get_config;
  let db := SqliteDb.mk (DatabaseConfig.db_file (AppConfig.database config)) None in
  model ← get_model None None;
  Agent_new {|
    Agent.id := Some (cfg_db_table CONVERSATION_AGENT_CONFIG);
    Agent.name := cfg_name CONVERSATION_AGENT_CONFIG;
    Agent.model := model;
    Agent.db := db;
    Agent.tools := None;
    Agent.knowledge := None;
    Agent.description := cfg_description CONVERSATION_AGENT_CONFIG;
    Agent.instructions := cfg_instructions CONVERSATION_AGENT_CONFIG;
    Agent.add_history_to_context := Some true;
    Agent.num_history_runs := Some 3%Z;
    Agent.add_datetime_to_context := None;
    Agent.markdown := Some true;
    Agent.add_session_state_to_context := None;
    Agent.add_dependencies_to_context := None;
    Agent.add_memories_to_context := None;
    Agent.vector_db := None;
    Agent.knowledge_base := None;
    Agent.embeddings := None;
    Agent.users := None;
    Agent.memory_config := None
  |}.

(* --------------------------------------------------------------------- *)
(** *** agents/research_agent.py                                          *)
(* --------------------------------------------------------------------- *)

Definition create_research_agent : M Agent.t :=
  config ← get_config;
  let db := SqliteDb.mk (DatabaseConfig.db_file (AppConfig.database config)) None in
  (* getattr(config.agent, "mcp_url", ...): the attribute always exists *)
  let mcp_tools :=
    MCPTools.mk "streamable-http" (AgentConfig.mcp_url (AppConfig.agent config)) in
  model ← get_model None None;
  Agent_new {|
    Agent.id := Some (cfg_db_table RESEARCH_AGENT_CONFIG);
    Agent.name := cfg_name RESEARCH_AGENT_CONFIG;
    Agent.model := model;
    Agent.db := db;
    Agent.tools := Some [MCP mcp_tools];
    Agent.knowledge := None;
    Agent.description := cfg_description RESEARCH_AGENT_CONFIG;
    Agent.instructions := cfg_instructions RESEARCH_AGENT_CONFIG;
    Agent.add_history_to_context := Some true;
    Agent.num_history_runs := Some 3%Z;
    Agent.add_datetime_to_context := None;
    Agent.markdown := Some true;
    Agent.add_session_state_to_context := None;
    Agent.add_dependencies_to_context := None;
    Agent.add_memories_to_context := None;
    Agent.vector_db := None;
    Agent.knowledge_base := None;
    Agent.embeddings := None;
    Agent.users := None;
    Agent.memory_config := None
  |}.

(* --------------------------------------------------------------------- *)
(** *** agents/assist_agent.py                                            *)
(* --------------------------------------------------------------------- *)

(** The vector database both the assist agent and the loader connect to. *)
Definition assist_vector_db : LanceDb.t :=
  LanceDb.mk "tmp/lancedb" "agno_assist_knowledge" hybrid
             (OpenAIEmbedder.mk "text-embedding-3-small").

Definition create_assist_agent : M Agent.t :=
  config ← get_config;
  let db := SqliteDb.mk (DatabaseConfig.db_file (AppConfig.database config)) None in
  knowledge ← try_except_Exception
    (k ← Knowledge_new assist_vector_db;
     print "[INFO] Assist agent created with RAG enabled (knowledge base ready)";;
     mret (Some k))
    (λ e,
     print ("[WARNING] Could not create knowledge base: " ++ exn_str e);;
     print "[INFO] Creating assist agent WITHOUT RAG (basic mode)";;
     mret None);
  model ← get_model None None;
  Agent_new {|
    Agent.id := Some (cfg_db_table ASSIST_AGENT_CONFIG);
    Agent.name := cfg_name ASSIST_AGENT_CONFIG;
    Agent.model := model;
    Agent.db := db;
    Agent.tools := None;
    Agent.knowledge := knowledge;
    Agent.description := cfg_description ASSIST_AGENT_CONFIG;
    Agent.instructions := cfg_instructions ASSIST_AGENT_CONFIG;
    Agent.add_history_to_context := Some true;
    Agent.num_history_runs := Some 3%Z;
    Agent.add_datetime_to_context := Some true;
    Agent.markdown := Some true;
    Agent.add_session_state_to_context := None;
    Agent.add_dependencies_to_context := None;
    Agent.add_memories_to_context := None;
    Agent.vector_db := None;
    Agent.knowledge_base := None;
    Agent.embeddings := None;
    Agent.users := None;
    Agent.memory_config := None
  |}.

(* --------------------------------------------------------------------- *)
(** *** core/runtime.py                                                   *)
(* --------------------------------------------------------------------- *)

Definition create_runtime : M AgentOS.t :=
  config ← get_config;
  conversation_agent ← create_conversation_agent;
  research_agent ← create_research_agent;
  assist_agent ← create_assist_agent;
  let runtime :=
    AgentOS.mk APP_NAME APP_DESCRIPTION APP_VERSION
               [conversation_agent; research_agent; assist_agent]
               agno_middleware in
  (* app = runtime.get_app(); app.add_middleware(CORSMiddleware, ...):
     add_middleware inserts the new entry at the head of the list *)
  let cors :=
    CORSMiddleware.mk ["http://localhost:3000"] true ["*"] ["*"] in
  mret (AgentOS.mk (AgentOS.name runtime) (AgentOS.description runtime)
                   (AgentOS.version runtime) (AgentOS.agents runtime)
                   (CORS cors :: AgentOS.middleware runtime)).

End Backend.

(* ===================================================================== *)
(** ** The knowledge pipeline and load_knowledge.py                       *)
(* ===================================================================== *)

(** The ingestion itself is performed by the knowledge library behind
    [Knowledge.add_content]; the backend only calls it.  The pipeline
    below follows the specification of that component (sections 3 and 4.3);
    [load_documentation] is the backend's loader script on top of it. *)

Section KnowledgePipeline.

(** The capabilities ingestion consumes: fetching a source as text
    ([None] when the fetch fails), splitting text into chunks, embedding a
    chunk ([None] when the embedding call fails), deriving keyword tokens,
    and whether writing a chunk to the index fails. *)
Variable Vec : Type.
Variable fetch : string → option string.
Variable split : string → list string.
Variable embed : string → option Vec.
Variable tokens : string → list string.
Variable write_fails : string → bool.

(** Modelled from the spec: the KnowledgeChunk of section 3 (source
    identifier, chunk text, embedding vector, keyword-index tokens). *)
Record KnowledgeChunk : Type := mkChunk {
  source_id : string;
  chunk_text : string;
  embedding : Vec;
  keyword_tokens : list string;
}.

(** Modelled from the spec: the states of a knowledge source in the state
    machine of section 4.3. *)
Inductive SourceState : Type := Unloaded | Ingesting | Ready | Failed.

(** Modelled from the spec: the knowledge index keyed by source identifier
    (section 6), the state of every source that left [Unloaded], and the
    number of capability calls (fetch, embed, index write) performed so
    far, which measures the work done. *)
Record Pipeline : Type := mkPipeline {
  index : gmap string (list KnowledgeChunk);
  states : gmap string SourceState;
  work : nat;
}.

(** Modelled from the spec: the state of one source. *)
Definition source_state (p : Pipeline) (source : string) : SourceState :=
  match states p !! source with
  | Some s => s
  | None => Unloaded
  end.

(** Modelled from the spec: a source is present when its identifier
    exists in the index. *)
Definition present (p : Pipeline) (source : string) : bool :=
  match index p !! source with
  | Some _ => true
  | None => false
  end.

(** Modelled from the spec: the [IngestionError] of section 7, an error
    like any other for the code that catches it. *)
Definition IngestionError (reason : string) : exn := Exception "IngestionError" reason.

(** Modelled from the spec: the chunk loop of [ingest].  Each chunk is
    embedded and written, with its derived tokens, under the source's
    entry of the index; the loop stops at the first failing call. *)
Fixpoint write_chunks (source : string) (texts : list string) (p : Pipeline)
    : (exn + unit) * Pipeline :=
  match texts with
  | [] => (inr tt, p)
  | text :: rest =>
      let p := mkPipeline (index p) (states p) (S (work p)) in
      match embed text with
      | None => (inl (IngestionError "embedding"), p)
      | Some v =>
          let p := mkPipeline (index p) (states p) (S (work p)) in
          if write_fails text then (inl (IngestionError "index write"), p)
          else
            let chunk := mkChunk source text v (tokens text) in
            let written := (default [] (index p !! source) ++ [chunk])%list in
            write_chunks source rest
              (mkPipeline (<[source := written]> (index p)) (states p) (work p))
      end
  end.

(** Modelled from the spec: the [Failed] transition discards the chunks
    written for the source and surfaces the error. *)
Definition fail_ingestion (source : string) (e : exn) (p : Pipeline)
    : (exn + unit) * Pipeline :=
  (inl e, mkPipeline (delete source (index p))
                     (<[source := Failed]> (states p)) (work p)).

(** Modelled from the spec: [ingest(source, force=false)] of section 4.3.
    A source already present is left alone unless [force] is set;
    otherwise the source is fetched, split, embedded and written, and any
    failure on the way leaves no chunk of the source in the index. *)
Definition ingest (source : string) (force : bool) (p : Pipeline)
    : (exn + unit) * Pipeline :=
  if present p source && negb force then (inr tt, p)
  else
    let p := mkPipeline (<[source := []]> (index p))
                        (<[source := Ingesting]> (states p)) (S (work p)) in
    match fetch source with
    | None => fail_ingestion source (IngestionError "fetch") p
    | Some raw =>
        match write_chunks source (split raw) p with
        | (inr _, p) =>
            (inr tt, mkPipeline (index p) (<[source := Ready]> (states p)) (work p))
        | (inl e, p) => fail_ingestion source e p
        end
    end.

(** Modelled from the spec: [add_content(name, url, skip_if_exists)] is
    ingestion of the source identified by its URL, forced unless
    [skip_if_exists] is set (section 6). *)
Definition add_content (name url : string) (skip_if_exists : bool) (p : Pipeline)
    : (exn + unit) * Pipeline :=
  ingest url (negb skip_if_exists) p.

(* --------------------------------------------------------------------- *)
(** *** load_knowledge.py                                                 *)
(* --------------------------------------------------------------------- *)

Definition DOCS_URL := "https://docs.agno.com/llms-full.txt".

(** The loader's state: the pipeline behind the knowledge base, what
    constructing the knowledge base raises (if anything), and the lines
    printed so far. *)
Record Loader : Type := mkLoader {
  pipeline : Pipeline;
  kb_fault : option exn;
  printed : list string;
}.

Definition echo (lines : list string) (l : Loader) : Loader :=
  mkLoader (pipeline l) (kb_fault l) (printed l ++ lines)%list.

(** [sys.exit(1)]. *)
Definition sys_exit (code : Z) (l : Loader) : (exn + unit) * Loader :=
  (inl (SystemExit code), l).

Definition load_documentation (l : Loader) : (exn + unit) * Loader :=
  let l := echo [str_repeat "=" 70;
                 " Agno Assist - Knowledge Base Loader";
                 str_repeat "=" 70;
                 "";
                 "[1/4] Creating knowledge base connection..."] l in
  match kb_fault l with
  | Some e => (inl e, l)
  | None =>
      let knowledge := Knowledge.mk assist_vector_db in
      let l := echo ["[2/4] Downloading documentation from https://docs.agno.com/llms-full.txt...";
                     "      (This may take 2-5 minutes)"] l in
      match add_content "Agno Documentation" DOCS_URL true (pipeline l) with
      | (inr _, p) =>
          (inr tt,
           echo [""; "[SUCCESS] Documentation loaded successfully!"; "";
                 "Knowledge base is now ready for Agno Assist agent.";
                 "You can start using the assist-agent with RAG capabilities.";
                 ""]
                (mkLoader p (kb_fault l) (printed l)))
      | (inl KeyboardInterrupt, p) =>
          sys_exit 1
            (echo [""; "[CANCELLED] Loading interrupted by user"; ""]
                  (mkLoader p (kb_fault l) (printed l)))
      | (inl e, p) =>
          if is_Exception e then
            sys_exit 1
              (echo [""; "[ERROR] Failed to load documentation: " ++ exn_str e; "";
                     "Please check:";
                     "  1. Internet connection";
                     "  2. OPENAI_API_KEY environment variable is set";
                     "  3. OpenAI API has credits available";
                     ""]
                    (mkLoader p (kb_fault l) (printed l)))
          else (inl e, mkLoader p (kb_fault l) (printed l))
      end
  end.

End KnowledgePipeline.

Arguments mkChunk {Vec}.
Arguments mkPipeline {Vec}.
Arguments mkLoader {Vec}.
Arguments index {Vec}.
Arguments states {Vec}.
Arguments work {Vec}.
Arguments pipeline {Vec}.
Arguments kb_fault {Vec}.
Arguments printed {Vec}.
Arguments source_state {Vec}.
Arguments present {Vec}.
Arguments fail_ingestion {Vec}.
Arguments echo {Vec}.
Arguments sys_exit {Vec}.
Arguments write_chunks {Vec}.
Arguments ingest {Vec}.
Arguments add_content {Vec}.
Arguments load_documentation {Vec}.

(* ===================================================================== *)
(** ** Inputs for the examples                                            *)
(* ===================================================================== *)

Fixpoint digits_value (acc : Z) (s : string) : option Z :=
  match s with
  | EmptyString => Some acc
  | String c s' =>
      let n := nat_of_ascii c in
      if (48 <=? n)%nat && (n <=? 57)%nat
      then digits_value (10 * acc + Z.of_nat (n - 48)) s'
      else None
  end.

(** Python's [int] on plain decimal numerals (digits only), which is all
    the examples feed it; the theorems hold for every [py_int]. *)
Definition int_of_decimal (s : string) : option Z :=
  match s with
  | EmptyString => None
  | _ => digits_value 0 s
  end.

(** The examples are ASCII text, on which Python's Unicode case mapping
    is never consulted. *)
Definition no_unicode (s : string) : string := s.

(** A middleware list for the application of [runtime.get_app()]. *)
Definition agno_cors : list Middleware :=
  [CORS (CORSMiddleware.mk ["*"] true ["*"] ["*"])].

(** A freshly started process: nothing loaded, printed or constructed. *)
Definition fresh_world (env : gmap string string) (fault : option exn) : World :=
  mkWorld env None fault [] 0.

(** Only the Anthropic key is set; the provider defaults to "openai". *)
Definition env_anthropic_key_only : gmap string string :=
  <["ANTHROPIC_API_KEY" := "sk-ant-0001"]> ∅.

(** The OpenAI key is set and everything else is left to the defaults. *)
Definition env_openai : gmap string string :=
  <["OPENAI_API_KEY" := "sk-test-1234"]> ∅.

(** No API key at all. *)
Definition env_no_keys : gmap string string := ∅.

(** The configuration [env_openai] loads to, and the world once it is
    cached. *)
Definition config_openai : AppConfig.t := {|
  AppConfig.name := APP_NAME;
  AppConfig.version := APP_VERSION;
  AppConfig.description := APP_DESCRIPTION;
  AppConfig.openai := OpenAIConfig.mk "sk-test-1234";
  AppConfig.anthropic := AnthropicConfig.mk "";
  AppConfig.model := ModelConfig.mk "openai" "gpt-4";
  AppConfig.database := DatabaseConfig.mk "agno.db" "vector.db";
  AppConfig.agent := AgentConfig.mk "gpt-4" "https://docs.agno.com/mcp";
  AppConfig.server := ServerConfig.mk "0.0.0.0" 8000 true "info"
|}.

Definition world_openai (fault : option exn) : World :=
  mkWorld env_openai (Some config_openai) fault [] 0.

(** A [build] call with an empty store key, an empty tool list and an
    empty user list. *)
Definition required_empty_key : Required.t :=
  Required.mk "Helper" "Helpful assistant" ["You are helpful"] "".

Definition overrides_empty_lists : Overrides.t :=
  Overrides.mk None None (Some []) (Some []) None None None None (Some false) None None.

(** The same configuration with another OpenAI key ending in "1234". *)
Definition config_openai_other_key : AppConfig.t := {|
  AppConfig.name := APP_NAME;
  AppConfig.version := APP_VERSION;
  AppConfig.description := APP_DESCRIPTION;
  AppConfig.openai := OpenAIConfig.mk "sk-prod-99991234";
  AppConfig.anthropic := AnthropicConfig.mk "";
  AppConfig.model := ModelConfig.mk "openai" "gpt-4";
  AppConfig.database := DatabaseConfig.mk "agno.db" "vector.db";
  AppConfig.agent := AgentConfig.mk "gpt-4" "https://docs.agno.com/mcp";
  AppConfig.server := ServerConfig.mk "0.0.0.0" 8000 true "info"
|}.

(** A configuration whose OpenAI key has four characters. *)
Definition config_short_key : AppConfig.t := {|
  AppConfig.name := APP_NAME;
  AppConfig.version := APP_VERSION;
  AppConfig.description := APP_DESCRIPTION;
  AppConfig.openai := OpenAIConfig.mk "abcd";
  AppConfig.anthropic := AnthropicConfig.mk "";
  AppConfig.model := ModelConfig.mk "openai" "gpt-4";
  AppConfig.database := DatabaseConfig.mk "agno.db" "vector.db";
  AppConfig.agent := AgentConfig.mk "gpt-4" "https://docs.agno.com/mcp";
  AppConfig.server := ServerConfig.mk "0.0.0.0" 8000 true "info"
|}.

(** [d[key]] on a dictionary value ([None] for a missing key). *)
Definition py_getitem (d : pyval) (key : string) : option pyval :=
  match d with
  | PDict items => snd <$> List.find (λ kv, String.eqb (fst kv) key) items
  | _ => None
  end.

(** A knowledge base that cannot be constructed. *)
Definition lancedb_unavailable : exn := Exception "ConnectionError" "LanceDB unavailable".

(** Capabilities for running the pipeline: every source fetches to one
    short text, which is a single chunk embedded as its length. *)
Definition demo_fetch (source : string) : option string := Some "Agno is a framework".
Definition demo_split (text : string) : list string := [text].
Definition demo_embed (text : string) : option nat := Some (String.length text).
Definition demo_tokens (text : string) : list string := [text].
Definition demo_write_fails (text : string) : bool := false.

Definition empty_pipeline : Pipeline nat := mkPipeline ∅ ∅ 0.
Definition fresh_loader : Loader nat := mkLoader empty_pipeline None [].

(** The world after [os.environ] has been replaced by [env]. *)
Definition set_environ (env : gmap string string) (w : World) : World :=
  mkWorld env (_config w) (rag_fault w) (stdout w) (agents_constructed w).

(* ===================================================================== *)
(** ** utils/logger.py                                                    *)
(* ===================================================================== *)

Definition upper_ascii (c : ascii) : ascii :=
  let n := nat_of_ascii c in
  if (97 <=? n)%nat && (n <=? 122)%nat then ascii_of_nat (n - 32) else c.

(** [s.upper()] on ASCII text: a-z become A-Z. *)
Fixpoint upper_text (s : string) : string :=
  match s with
  | EmptyString => EmptyString
  | String c s' => String (upper_ascii c) (upper_text s')
  end.

(** [s.upper()].  On ASCII text Python maps a-z to A-Z; on any other text
    the result is that of Python's Unicode case mapping, which the
    development takes as the parameter [unicode_upper]. *)
Definition upper (unicode_upper : string → string) (s : string) : string :=
  if is_ascii s then upper_text s else unicode_upper s.

(** The part of Python's [logging] module that [get_logger] relies on: a
    handler with its stream, level and format; a logger with its handlers
    and level; the level names [logging._nameToLevel] knows. *)
Module Handler.
Record t : Type := mk {
  stream : string;
  level : Z;
  fmt : string;
  datefmt : string;
}.
End Handler.

Module Logger.
Record t : Type := mk {
  name : string;
  handlers : list Handler.t;
  level : Z;
}.
End Logger.

(** [logging._nameToLevel.get(level)]. *)
Definition nameToLevel (level : string) : option Z :=
  if String.eqb level "CRITICAL" then Some 50%Z
  else if String.eqb level "FATAL" then Some 50%Z
  else if String.eqb level "ERROR" then Some 40%Z
  else if String.eqb level "WARN" then Some 30%Z
  else if String.eqb level "WARNING" then Some 30%Z
  else if String.eqb level "INFO" then Some 20%Z
  else if String.eqb level "DEBUG" then Some 10%Z
  else if String.eqb level "NOTSET" then Some 0%Z
  else None.

(** The process together with the loggers [logging.getLogger] has handed
    out so far, by name. *)
Record Process : Type := mkProcess {
  world : World;
  loggers : gmap string Logger.t;
}.

(** The name under which [logging.getLogger(name)] looks a logger up: an
    empty name denotes the root logger. *)
Definition logger_key (name : string) : string :=
  if truthy name then name else "root".

(** A logger [logging.getLogger] creates on first use: no handler, level
    NOTSET, except for the root logger, whose level is WARNING. *)
Definition new_logger (key : string) : Logger.t :=
  Logger.mk key [] (if String.eqb key "root" then 30%Z else 0%Z).

Section LoggerModule.

Variable py_int : string → option Z.
Variable unicode_lower : string → string.

(** Python's [str.upper] on text that is not pure ASCII. *)
Variable unicode_upper : string → string.

(** Python's [repr] on strings, as it appears in the message of
    [logging]'s "Unknown level" error. *)
Variable py_repr : string → string.

(** [logging._checkLevel] on a level given by name. *)
Definition checkLevel (level : string) : exn + Z :=
  match nameToLevel level with
  | Some n => inr n
  | None => inl (ValueError ("Unknown level: " ++ py_repr level))
  end.

Definition get_logger (name : string) (level : option string) (ps : Process)
    : (exn + Logger.t) * Process :=
  match get_config py_int unicode_lower (world ps) with
  | (inl e, w) => (inl e, mkProcess w (loggers ps))
  | (inr config, w) =>
      (* logger = logging.getLogger(name) *)
      let key := logger_key name in
      let logger := default (new_logger key) (loggers ps !! key) in
      let registry := <[key := logger]> (loggers ps) in
      match Logger.handlers logger with
      | [] =>
          let log_level :=
            opt_or level
              (upper unicode_upper
                 (ServerConfig.log_level (AppConfig.server config))) in
          (* handler.setLevel(log_level) *)
          match checkLevel log_level with
          | inl e => (inl e, mkProcess w registry)
          | inr n =>
              let handler :=
                Handler.mk "stdout" n "[%(levelname)s] %(name)s - %(message)s"
                           "%Y-%m-%d %H:%M:%S" in
              (* logger.addHandler(handler); logger.setLevel(log_level) *)
              let logger :=
                Logger.mk (Logger.name logger) (Logger.handlers logger ++ [handler]) n in
              (inr logger, mkProcess w (<[key := logger]> registry))
          end
      | _ :: _ => (inr logger, mkProcess w registry)
      end
  end.

End LoggerModule.

(** A process that has handed out no logger yet. *)
Definition fresh_process (env : gmap string string) : Process :=
  mkProcess (fresh_world env None) ∅.

(** Python's [repr] on strings without quotes or escapes, which is all
    the examples feed it. *)
Definition repr_plain (s : string) : string := "'" ++ s ++ "'".

(** An environment that selects a provider the backend does not know. *)
Definition env_unknown_provider : gmap string string :=
  <["MODEL_PROVIDER" := "Azure"]> env_openai.

(* ===================================================================== *)
(** * Properties                                                          *)
(* ===================================================================== *)

Section BackendProperties.

Variable py_int : string → option Z.
Variable unicode_lower : string → string.
Variable agno_middleware : list Middleware.

Ltac unfold_monad :=
  unfold mbind, M_bind, mret, M_ret, raise, lift_result, read_config_global,
    write_config_global, read_environ, Agent_new, print in *.

(** *** The monad and the configuration singleton *)

Lemma bind_inr {A B : Type} (m : M A) (k : A → M B) (w w1 : World) (a : A) :
  m w = (inr a, w1) → (m ≫= k) w = k a w1.
Proof. intros H. unfold mbind, M_bind. by rewrite H. Qed.

Lemma bind_inl {A B : Type} (m : M A) (k : A → M B) (w w1 : World) (e : exn) :
  m w = (inl e, w1) → (m ≫= k) w = (inl e, w1).
Proof. intros H. unfold mbind, M_bind. by rewrite H. Qed.

Lemma get_config_cached (w : World) (cfg : AppConfig.t) :
  _config w = Some cfg → get_config py_int unicode_lower w = (inr cfg, w).
Proof. intros H. unfold get_config. unfold_monad. by rewrite H. Qed.

Lemma get_config_inr (w w1 : World) (cfg : AppConfig.t) :
  get_config py_int unicode_lower w = (inr cfg, w1) →
  _config w1 = Some cfg ∧ environ w1 = environ w ∧ rag_fault w1 = rag_fault w
  ∧ stdout w1 = stdout w ∧ agents_constructed w1 = agents_constructed w.
Proof.
  unfold get_config. unfold_monad.
  destruct (_config w) as [c|] eqn:Hc.
  - intros [= <- <-]. done.
  - destruct (AppConfig.from_env py_int unicode_lower (environ w)) as [e|c]; intros [=
      <- <-]; done.
Qed.

Lemma get_config_inl (w w1 : World) (e : exn) :
  get_config py_int unicode_lower w = (inl e, w1) →
  w1 = w ∧ _config w = None ∧ AppConfig.from_env py_int unicode_lower (environ w) = inl e.
Proof.
  unfold get_config. unfold_monad.
  destruct (_config w) as [c|] eqn:Hc; [done|].
  destruct (AppConfig.from_env py_int unicode_lower (environ w)) as [e'|c]; intros [= <-
      <-]; done.
Qed.

Lemma get_config_again (w w1 : World) (cfg : AppConfig.t) :
  get_config py_int unicode_lower w = (inr cfg, w1) → get_config py_int unicode_lower w1
      = (inr cfg, w1).
Proof. intros H. apply get_config_cached. by apply get_config_inr in H as [? _]. Qed.

(** Once the configuration is cached, the outcome of [get_model] depends
    on the configuration only and the world is left as it is. *)
Lemma get_model_cached (cfg : AppConfig.t) (p m : option string) :
  ∃ r, ∀ w, _config w = Some cfg → get_model py_int unicode_lower p m w = (r, w).
Proof.
  pose (fp := opt_or p (ModelConfig.provider (AppConfig.model cfg))).
  destruct (String.eqb fp "openai") eqn:E1;
    [|destruct (String.eqb fp "anthropic") eqn:E2];
    eexists; intros w Hw; unfold get_model;
    rewrite (bind_inr _ _ _ _ _ (get_config_cached _ _ Hw));
    fold fp; rewrite E1, ?E2; reflexivity.
Qed.

Lemma get_model_from (w w1 : World) (cfg : AppConfig.t) (p m : option string) :
  get_config py_int unicode_lower w = (inr cfg, w1) →
  get_model py_int unicode_lower p m w = get_model py_int unicode_lower p m w1.
Proof.
  intros H. unfold get_model.
  by rewrite (bind_inr _ _ _ _ _ H), (bind_inr _ _ _ _ _ (get_config_again _ _ _ H)).
Qed.

(** A model resolved while loading the configuration is resolved again,
    to the same client, in every world that caches that configuration. *)
Lemma get_model_stable (w w1 w2 : World) (cfg : AppConfig.t) (p m : option string)
    (r : exn + Model) :
  get_config py_int unicode_lower w = (inr cfg, w1) →
  get_model py_int unicode_lower p m w = (r, w1) →
  _config w2 = Some cfg →
  get_model py_int unicode_lower p m w2 = (r, w2).
Proof.
  intros Hcfg Hm Hw2.
  destruct (get_model_cached cfg p m) as [r' Hr'].
  rewrite (get_model_from _ _ _ _ _ Hcfg) in Hm.
  rewrite Hr' in Hm by (by apply get_config_inr in Hcfg as [? _]).
  injection Hm as ->. by apply Hr'.
Qed.

(** *** The builder *)

(** What [build] returns, field by field. *)
Lemma build_fields (req : Required.t) (ov : Overrides.t) (w w1 : World)
    (cfg : AppConfig.t) (m0 : Model) :
  get_config py_int unicode_lower w = (inr cfg, w1) →
  (Overrides.model ov = None → get_model py_int unicode_lower None None w = (inr m0, w1)) →
  ∃ d : Agent.t,
    build py_int unicode_lower req ov w = (inr d, one_more_agent w1)
    ∧ Agent.id d = None
    ∧ Agent.name d = Required.name req
    ∧ Agent.model d = default m0 (Overrides.model ov)
    ∧ Agent.db d =
        default (SqliteDb.mk (DatabaseConfig.db_file (AppConfig.database cfg))
                             (Some (Required.db_table req)))
                (Overrides.db ov)
    ∧ Agent.tools d = Some (default [] (Overrides.tools ov))
    ∧ Agent.knowledge d = None
    ∧ Agent.description d = Required.description req
    ∧ Agent.instructions d = Required.instructions req
    ∧ Agent.add_history_to_context d = None
    ∧ Agent.num_history_runs d = None
    ∧ Agent.add_datetime_to_context d = None
    ∧ Agent.markdown d = None
    ∧ Agent.add_session_state_to_context d =
        Some (default true (Overrides.add_session_state_to_context ov))
    ∧ Agent.add_dependencies_to_context d =
        Some (default true (Overrides.add_dependencies_to_context ov))
    ∧ Agent.add_memories_to_context d =
        Some (default true (Overrides.add_memories_to_context ov))
    ∧ Agent.vector_db d = Overrides.vector_db ov
    ∧ Agent.knowledge_base d = Overrides.knowledge_base ov
    ∧ Agent.embeddings d = Overrides.embeddings ov
    ∧ Agent.users d = Overrides.users ov
    ∧ Agent.memory_config d = Overrides.memory_config ov.
Proof.
  intros Hcfg Hmodel. unfold build.
  rewrite (bind_inr _ _ _ _ _ Hcfg).
  destruct ov as [model db tools users vdb kb emb f1 f2 f3 mem]; simpl in *.
  assert (Hm : (match model with
                | Some model0 => mret model0
                | None => get_model py_int unicode_lower None None
                end : M Model) w1 = (inr (default m0 model), w1)).
  { destruct model as [m|]; [done|]. simpl.
    rewrite <- (get_model_from _ _ _ _ _ Hcfg). by apply Hmodel. }
  rewrite (bind_inr _ _ _ _ _ Hm).
  unfold_monad. simpl.
  eexists. split; [reflexivity|].
  destruct vdb, kb, emb, users, mem, db, tools; simpl; repeat split; reflexivity.
Qed.

(** C1. Whenever the configuration loads and the model is either
    supplied or resolvable, [build] returns a descriptor in which every
    optional field equals its override when one is supplied and its
    default when it is omitted: the model defaults to what [get_model()]
    resolves, the store to the configured backing file keyed by the store
    key, the tool list to the empty list, the three context flags to
    [True], and the attributes users, vector_db, knowledge_base,
    embeddings and memory_config stay unset.  An explicitly empty tool
    list is kept as the descriptor's tool list. *)
Theorem build_override_or_default (req : Required.t) (ov : Overrides.t)
    (w w1 : World) (cfg : AppConfig.t) (m0 : Model) :
  get_config py_int unicode_lower w = (inr cfg, w1) →
  (Overrides.model ov = None → get_model py_int unicode_lower None None w = (inr m0, w1)) →
  ∃ d : Agent.t,
    build py_int unicode_lower req ov w = (inr d, one_more_agent w1)
    ∧ Agent.name d = Required.name req
    ∧ Agent.description d = Required.description req
    ∧ Agent.instructions d = Required.instructions req
    ∧ Agent.model d = default m0 (Overrides.model ov)
    ∧ Agent.db d =
        default (SqliteDb.mk (DatabaseConfig.db_file (AppConfig.database cfg))
                             (Some (Required.db_table req)))
                (Overrides.db ov)
    ∧ Agent.tools d = Some (default [] (Overrides.tools ov))
    ∧ Agent.add_session_state_to_context d =
        Some (default true (Overrides.add_session_state_to_context ov))
    ∧ Agent.add_dependencies_to_context d =
        Some (default true (Overrides.add_dependencies_to_context ov))
    ∧ Agent.add_memories_to_context d =
        Some (default true (Overrides.add_memories_to_context ov))
    ∧ Agent.users d = Overrides.users ov
    ∧ Agent.vector_db d = Overrides.vector_db ov
    ∧ Agent.knowledge_base d = Overrides.knowledge_base ov
    ∧ Agent.embeddings d = Overrides.embeddings ov
    ∧ Agent.memory_config d = Overrides.memory_config ov
    ∧ (Overrides.tools ov = Some [] → Agent.tools d = Some []).
Proof.
  intros Hcfg Hmodel.
  destruct (build_fields req ov w w1 cfg m0 Hcfg Hmodel)
    as (d & Hb & _ & Hname & Hm & Hdb & Htools & _ & Hdesc & Hins & _ & _ & _ & _
        & Hf1 & Hf2 & Hf3 & Hv & Hk & He & Hu & Hmem).
  exists d. repeat split; try assumption.
  intros Hempty. by rewrite Htools, Hempty.
Qed.

(** C4 (amended). [build] validates no store key: for every store key,
    the empty string included, it returns a descriptor whenever the
    configuration loads and the model is supplied or resolvable; without
    a store override the descriptor's store is the configured backing file
    keyed by exactly that store key; and building again with the same
    store key against the same backing file returns an equal descriptor
    instead of failing. *)
Theorem build_accepts_any_store_key (req : Required.t) (ov : Overrides.t)
    (w w1 : World) (cfg : AppConfig.t) (m0 : Model) :
  get_config py_int unicode_lower w = (inr cfg, w1) →
  (Overrides.model ov = None → get_model py_int unicode_lower None None w = (inr m0, w1)) →
  ∃ d : Agent.t,
    build py_int unicode_lower req ov w = (inr d, one_more_agent w1)
    ∧ (Overrides.db ov = None →
       Agent.db d = SqliteDb.mk (DatabaseConfig.db_file (AppConfig.database cfg))
                                (Some (Required.db_table req)))
    ∧ build py_int unicode_lower req ov (one_more_agent w1)
      = (inr d, one_more_agent (one_more_agent w1)).
Proof.
  intros Hcfg Hmodel.
  destruct (build_fields req ov w w1 cfg m0 Hcfg Hmodel) as (d & Hb & Hd).
  exists d. split; [exact Hb|]. split.
  { intros Hnone. destruct Hd as (_ & _ & _ & Hdb & _). by rewrite Hdb, Hnone. }
  assert (Hc1 : _config (one_more_agent w1) = Some cfg)
    by (by apply get_config_inr in Hcfg as [? _]).
  destruct (build_fields req ov (one_more_agent w1) (one_more_agent w1) cfg m0)
    as (d' & Hb' & Hd').
  { by apply get_config_cached. }
  { intros Hnone. eapply get_model_stable; eauto. }
  rewrite Hb'. f_equal. f_equal.
  destruct Hd as (? & ? & ? & ? & ? & ? & ? & ? & ? & ? & ? & ? & ? & ? & ? & ? & ? & ? & ? & ?).
  destruct Hd' as (? & ? & ? & ? & ? & ? & ? & ? & ? & ? & ? & ? & ? & ? & ? & ? & ? & ? & ? & ?).
  destruct d, d'; simpl in *. subst. reflexivity.
Qed.

(** *** Model resolution *)

(** C3 (amended). Let the resolved provider be the override when it is a
    non-empty string and the configured provider otherwise (likewise for
    the model id).  When the resolved provider is "openai" or "anthropic",
    [get_model] returns the corresponding client with the resolved model
    id and that provider's API key; for every other resolved provider it
    raises a [ValueError] whose message names the resolved provider and
    the supported set. *)
Theorem get_model_resolution (p m : option string) (w w1 : World) (cfg : AppConfig.t) :
  get_config py_int unicode_lower w = (inr cfg, w1) →
  let final_provider := opt_or p (ModelConfig.provider (AppConfig.model cfg)) in
  let final_model_id := opt_or m (ModelConfig.model_id (AppConfig.model cfg)) in
  (final_provider = "openai" →
   get_model py_int unicode_lower p m w
   = (inr (OpenAIChat final_model_id (OpenAIConfig.api_key (AppConfig.openai cfg))), w1))
  ∧ (final_provider = "anthropic" →
     get_model py_int unicode_lower p m w
     = (inr (Claude final_model_id (AnthropicConfig.api_key (AppConfig.anthropic cfg))), w1))
  ∧ (final_provider ≠ "openai" → final_provider ≠ "anthropic" →
     get_model py_int unicode_lower p m w
     = (inl (ValueError ("❌ Unsupported provider: " ++ final_provider ++ nl
                         ++ "   Supported: 'openai', 'anthropic'")), w1)).
Proof.
  intros Hcfg fp fm. unfold get_model. rewrite (bind_inr _ _ _ _ _ Hcfg).
  fold fp fm. repeat split.
  - intros ->. reflexivity.
  - intros ->. reflexivity.
  - intros H1 H2.
    apply String.eqb_neq in H1, H2. rewrite H1, H2. reflexivity.
Qed.

(** C9. In [get_model] an empty-string override of the provider or of the
    model id behaves exactly as an omitted one (the configured value is
    used), whereas [build] keeps an empty override: an empty tool list and
    an empty user list end up in the descriptor as given, and only an
    omitted user list leaves the attribute unset. *)
Theorem empty_override_get_model_vs_build (p m : option string)
    (req : Required.t) (ov : Overrides.t) (w w1 : World)
    (cfg : AppConfig.t) (m0 : Model) :
  get_config py_int unicode_lower w = (inr cfg, w1) →
  (Overrides.model ov = None → get_model py_int unicode_lower None None w = (inr m0, w1)) →
  get_model py_int unicode_lower (Some "") m w = get_model py_int unicode_lower None m w
  ∧ get_model py_int unicode_lower p (Some "") w = get_model py_int unicode_lower p None w
  ∧ ∃ d : Agent.t,
      build py_int unicode_lower req ov w = (inr d, one_more_agent w1)
      ∧ (Overrides.tools ov = Some [] → Agent.tools d = Some [])
      ∧ (Overrides.users ov = Some [] → Agent.users d = Some [])
      ∧ (Overrides.users ov = None → Agent.users d = None).
Proof.
  intros Hcfg Hmodel. split; [reflexivity|]. split.
  { unfold get_model. destruct p; reflexivity. }
  destruct (build_fields req ov w w1 cfg m0 Hcfg Hmodel)
    as (d & Hb & _ & _ & _ & _ & Htools & _ & _ & _ & _ & _ & _ & _
        & _ & _ & _ & _ & _ & _ & Hu & _).
  exists d. split; [exact Hb|]. rewrite Htools, Hu.
  repeat split; intros ->; reflexivity.
Qed.

(** *** The agent factories *)

Lemma get_model_inr (p m : option string) (w w1 : World) (m0 : Model) :
  get_model py_int unicode_lower p m w = (inr m0, w1) →
  ∃ cfg, get_config py_int unicode_lower w = (inr cfg, w1).
Proof.
  unfold get_model. destruct (get_config py_int unicode_lower w) as [[e|cfg] w'] eqn:Hcfg.
  - rewrite (bind_inl _ _ _ _ _ Hcfg). done.
  - rewrite (bind_inr _ _ _ _ _ Hcfg). intros H. exists cfg. f_equal.
    repeat case_match; unfold_monad; congruence.
Qed.

Lemma create_conversation_agent_cached (cfg : AppConfig.t) (r : exn + Model) (w : World) :
  _config w = Some cfg →
  get_model py_int unicode_lower None None w = (r, w) →
  match r with
  | inl e => create_conversation_agent py_int unicode_lower w = (inl e, w)
  | inr m =>
      ∃ d : Agent.t,
        create_conversation_agent py_int unicode_lower w = (inr d, one_more_agent w)
        ∧ Agent.id d = Some "agno-smart-assistant"
        ∧ Agent.model d = m
        ∧ Agent.db d = SqliteDb.mk (DatabaseConfig.db_file (AppConfig.database cfg)) None
        ∧ Agent.tools d = None
        ∧ Agent.knowledge d = None
        ∧ Agent.num_history_runs d = Some 3%Z
  end.
Proof.
  intros Hc Hm. unfold create_conversation_agent.
  rewrite (bind_inr _ _ _ _ _ (get_config_cached _ _ Hc)).
  destruct r as [e|m].
  - by rewrite (bind_inl _ _ _ _ _ Hm).
  - rewrite (bind_inr _ _ _ _ _ Hm). eexists. split; [reflexivity|]. done.
Qed.

Lemma create_research_agent_cached (cfg : AppConfig.t) (r : exn + Model) (w : World) :
  _config w = Some cfg →
  get_model py_int unicode_lower None None w = (r, w) →
  match r with
  | inl e => create_research_agent py_int unicode_lower w = (inl e, w)
  | inr m =>
      ∃ d : Agent.t,
        create_research_agent py_int unicode_lower w = (inr d, one_more_agent w)
        ∧ Agent.id d = Some "research-agent"
        ∧ Agent.model d = m
        ∧ Agent.db d = SqliteDb.mk (DatabaseConfig.db_file (AppConfig.database cfg)) None
        ∧ Agent.tools d =
            Some [MCP (MCPTools.mk "streamable-http"
                                   (AgentConfig.mcp_url (AppConfig.agent cfg)))]
        ∧ Agent.knowledge d = None
        ∧ Agent.num_history_runs d = Some 3%Z
  end.
Proof.
  intros Hc Hm. unfold create_research_agent.
  rewrite (bind_inr _ _ _ _ _ (get_config_cached _ _ Hc)).
  destruct r as [e|m].
  - by rewrite (bind_inl _ _ _ _ _ Hm).
  - rewrite (bind_inr _ _ _ _ _ Hm). eexists. split; [reflexivity|]. done.
Qed.

Lemma create_assist_agent_cached (cfg : AppConfig.t) (r : exn + Model) (w : World) :
  _config w = Some cfg →
  (∀ w', _config w' = Some cfg → get_model py_int unicode_lower None None w' = (r, w')) →
  match rag_fault w with
  | Some e =>
      if is_Exception e then
        match r with
        | inl e' => create_assist_agent py_int unicode_lower w = (inl e', assist_reported w)
        | inr m =>
            ∃ d : Agent.t,
              create_assist_agent py_int unicode_lower w = (inr d, one_more_agent
                  (assist_reported w))
              ∧ Agent.id d = Some "assist-agent"
              ∧ Agent.model d = m
              ∧ Agent.db d = SqliteDb.mk (DatabaseConfig.db_file (AppConfig.database cfg)) None
              ∧ Agent.tools d = None
              ∧ Agent.knowledge d = None
              ∧ Agent.num_history_runs d = Some 3%Z
        end
      else create_assist_agent py_int unicode_lower w = (inl e, w)
  | None =>
      match r with
      | inl e' => create_assist_agent py_int unicode_lower w = (inl e', assist_reported w)
      | inr m =>
          ∃ d : Agent.t,
            create_assist_agent py_int unicode_lower w = (inr d, one_more_agent
                (assist_reported w))
            ∧ Agent.id d = Some "assist-agent"
            ∧ Agent.model d = m
            ∧ Agent.db d = SqliteDb.mk (DatabaseConfig.db_file (AppConfig.database cfg)) None
            ∧ Agent.tools d = None
            ∧ Agent.knowledge d = Some (Knowledge.mk assist_vector_db)
            ∧ Agent.num_history_runs d = Some 3%Z
      end
  end.
Proof.
  intros Hc Hm. unfold create_assist_agent, assist_reported.
  rewrite (bind_inr _ _ _ _ _ (get_config_cached _ _ Hc)).
  unfold try_except_Exception, Knowledge_new. unfold_monad. simpl.
  destruct (rag_fault w) as [e|] eqn:Hf.
  - destruct (is_Exception e) eqn:He; [|done].
    simpl. rewrite Hm by done.
    destruct r as [e'|m]; [done|]. eexists. split; [reflexivity|]. done.
  - simpl. rewrite Hm by done.
    destruct r as [e'|m]; [done|]. eexists. split; [reflexivity|]. done.
Qed.

(** *** The runtime *)

Lemma create_assist_agent_from (w w1 : World) (cfg : AppConfig.t) :
  get_config py_int unicode_lower w = (inr cfg, w1) →
  create_assist_agent py_int unicode_lower w = create_assist_agent py_int unicode_lower w1.
Proof.
  intros H. unfold create_assist_agent.
  by rewrite (bind_inr _ _ _ _ _ H), (bind_inr _ _ _ _ _ (get_config_again _ _ _ H)).
Qed.

Lemma create_runtime_from (w w1 : World) (cfg : AppConfig.t) :
  get_config py_int unicode_lower w = (inr cfg, w1) →
  create_runtime py_int unicode_lower agno_middleware w = create_runtime py_int
      unicode_lower agno_middleware w1.
Proof.
  intros H. unfold create_runtime.
  by rewrite (bind_inr _ _ _ _ _ H), (bind_inr _ _ _ _ _ (get_config_again _ _ _ H)).
Qed.

(** Assembly succeeds exactly through the three factories, in order. *)
Lemma create_runtime_inr (w w' : World) (rt : AgentOS.t) :
  create_runtime py_int unicode_lower agno_middleware w = (inr rt, w') →
  ∃ (cfg : AppConfig.t) (w1 w2 w3 : World) (c rs a : Agent.t),
    get_config py_int unicode_lower w = (inr cfg, w1)
    ∧ create_conversation_agent py_int unicode_lower w1 = (inr c, w2)
    ∧ create_research_agent py_int unicode_lower w2 = (inr rs, w3)
    ∧ create_assist_agent py_int unicode_lower w3 = (inr a, w')
    ∧ AgentOS.agents rt = [c; rs; a].
Proof.
  unfold create_runtime.
  destruct (get_config py_int unicode_lower w) as [[e|cfg] w1] eqn:H0;
    [by rewrite (bind_inl _ _ _ _ _ H0)|rewrite (bind_inr _ _ _ _ _ H0)].
  destruct (create_conversation_agent py_int unicode_lower w1) as [[e|c] w2] eqn:H1;
    [by rewrite (bind_inl _ _ _ _ _ H1)|rewrite (bind_inr _ _ _ _ _ H1)].
  destruct (create_research_agent py_int unicode_lower w2) as [[e|rs] w3] eqn:H2;
    [by rewrite (bind_inl _ _ _ _ _ H2)|rewrite (bind_inr _ _ _ _ _ H2)].
  destruct (create_assist_agent py_int unicode_lower w3) as [[e|a] w4] eqn:H3;
    [by rewrite (bind_inl _ _ _ _ _ H3)|rewrite (bind_inr _ _ _ _ _ H3)].
  unfold_monad. intros [= <- <-].
  exists cfg, w1, w2, w3, c, rs, a. done.
Qed.

Lemma create_runtime_intro (w1 w2 w3 w4 : World) (cfg : AppConfig.t) (c rs a : Agent.t) :
  _config w1 = Some cfg →
  create_conversation_agent py_int unicode_lower w1 = (inr c, w2) →
  create_research_agent py_int unicode_lower w2 = (inr rs, w3) →
  create_assist_agent py_int unicode_lower w3 = (inr a, w4) →
  ∃ rt : AgentOS.t,
    create_runtime py_int unicode_lower agno_middleware w1 = (inr rt, w4) ∧
        AgentOS.agents rt = [c; rs; a].
Proof.
  intros H0 H1 H2 H3. unfold create_runtime.
  rewrite (bind_inr _ _ _ _ _ (get_config_cached _ _ H0)).
  rewrite (bind_inr _ _ _ _ _ H1), (bind_inr _ _ _ _ _ H2), (bind_inr _ _ _ _ _ H3).
  eexists. split; reflexivity.
Qed.

Lemma config_assist_reported (w : World) : _config (assist_reported w) = _config w.
Proof. unfold assist_reported. by destruct (rag_fault w). Qed.

(** C5. When constructing the knowledge base raises an exception (any
    instance of [Exception]) and the model resolves, [create_assist_agent]
    still returns the assist agent, with no knowledge attached, after
    printing the degradation; and [create_runtime] returns a runtime whose
    third agent is that descriptor, so the construction error reaches no
    caller. *)
Theorem assist_agent_survives_knowledge_failure (w w1 : World) (m0 : Model) (e : exn) :
  get_model py_int unicode_lower None None w = (inr m0, w1) →
  rag_fault w = Some e →
  is_Exception e = true →
  ∃ d : Agent.t,
    create_assist_agent py_int unicode_lower w
    = (inr d,
       one_more_agent
         (printed_line "[INFO] Creating assist agent WITHOUT RAG (basic mode)"
            (printed_line ("[WARNING] Could not create knowledge base: " ++ exn_str e)
               w1)))
    ∧ Agent.id d = Some "assist-agent"
    ∧ Agent.knowledge d = None
    ∧ ∃ (rt : AgentOS.t) (c rs : Agent.t) (w' : World),
        create_runtime py_int unicode_lower agno_middleware w = (inr rt, w') ∧
            AgentOS.agents rt = [c; rs; d].
Proof.
  intros Hm Hf He.
  destruct (get_model_inr _ _ _ _ _ Hm) as [cfg Hcfg].
  destruct (get_config_inr _ _ _ Hcfg) as (Hc1 & _ & Hf1 & _).
  rewrite <- Hf1 in Hf.
  assert (Hr : ∀ w', _config w' = Some cfg →
                     get_model py_int unicode_lower None None w' = (inr m0, w')).
  { intros w' Hw'. eapply get_model_stable; eauto. }
  (* the assist agent on its own *)
  pose proof (create_assist_agent_cached cfg (inr m0) w1 Hc1 Hr) as Ha.
  rewrite Hf, He in Ha. destruct Ha as (d & Hd & Hid & _ & _ & _ & Hk & _).
  unfold assist_reported in Hd. rewrite Hf in Hd.
  exists d. rewrite (create_assist_agent_from _ _ _ Hcfg).
  split; [exact Hd|]. split; [exact Hid|]. split; [exact Hk|].
  (* inside the runtime *)
  pose proof (create_conversation_agent_cached cfg (inr m0) w1 Hc1 (Hr _ Hc1)) as Hc.
  destruct Hc as (c & Hc & _).
  pose proof (create_research_agent_cached cfg (inr m0) (one_more_agent w1) Hc1
                (Hr (one_more_agent w1) Hc1)) as Hrs.
  destruct Hrs as (rs & Hrs & _).
  set (w3 := one_more_agent (one_more_agent w1)) in *.
  pose proof (create_assist_agent_cached cfg (inr m0) w3 Hc1 Hr) as Ha.
  change (rag_fault w3) with (rag_fault w1) in Ha. rewrite Hf, He in Ha.
  destruct Ha as (d' & Hd' & Hid' & Hm' & Hdb' & Ht' & Hk' & Hn').
  destruct (create_runtime_intro _ _ _ _ cfg c rs d' Hc1 Hc Hrs Hd') as (rt & Hrt & Hag).
  assert (d' = d) as ->.
  { unfold create_assist_agent in Hd, Hd'.
    rewrite (bind_inr _ _ _ _ _ (get_config_cached _ _ Hc1)) in Hd.
    rewrite (bind_inr _ _ _ _ _ (get_config_cached w3 _ Hc1)) in Hd'.
    unfold try_except_Exception, Knowledge_new in Hd, Hd'. unfold_monad.
    simpl in Hd, Hd'. rewrite Hf, He in Hd, Hd'. simpl in Hd, Hd'.
    rewrite Hr in Hd, Hd' by done. congruence. }
  exists rt, c, rs. eexists. rewrite (create_runtime_from _ _ _ Hcfg). split; eauto.
Qed.

(** C6. Whenever [create_runtime] succeeds, the runtime holds exactly
    three agents, whose ids (taken from the db_table constants) are
    pairwise distinct and whose stores are on the one backing file of the
    configuration.  The store key, however, is missing: each factory
    builds [SqliteDb(db_file=...)] without a session table, so the three
    agents have one and the same store and nothing in it tells their
    histories apart. *)
Theorem runtime_agents_share_one_store (w w' : World) (rt : AgentOS.t) :
  create_runtime py_int unicode_lower agno_middleware w = (inr rt, w') →
  ∃ (cfg : AppConfig.t) (c rs a : Agent.t),
    _config w' = Some cfg
    ∧ AgentOS.agents rt = [c; rs; a]
    ∧ Agent.id <$> AgentOS.agents rt
      = [Some "agno-smart-assistant"; Some "research-agent"; Some "assist-agent"]
    ∧ Agent.db c = SqliteDb.mk (DatabaseConfig.db_file (AppConfig.database cfg)) None
    ∧ Agent.db rs = Agent.db c
    ∧ Agent.db a = Agent.db c
    ∧ SqliteDb.session_table <$> (Agent.db <$> AgentOS.agents rt) = [None; None; None]
    ∧ ¬ NoDup (Agent.db <$> AgentOS.agents rt).
Proof.
  intros H.
  destruct (create_runtime_inr _ _ _ H)
    as (cfg & w1 & w2 & w3 & c & rs & a & Hcfg & Hc & Hrs & Ha & Hag).
  destruct (get_config_inr _ _ _ Hcfg) as (Hc1 & _).
  destruct (get_model_cached cfg None None) as [r Hr].
  pose proof (create_conversation_agent_cached cfg r w1 Hc1 (Hr _ Hc1)) as Pc.
  destruct r as [e|m]; [congruence|].
  destruct Pc as (c' & Hc' & Hcid & _ & Hcdb & _).
  rewrite Hc in Hc'. injection Hc' as <- ->.
  pose proof (create_research_agent_cached cfg (inr m) (one_more_agent w1) Hc1
                (Hr (one_more_agent w1) Hc1)) as Pr.
  destruct Pr as (rs' & Hrs' & Hrid & _ & Hrdb & _).
  rewrite Hrs in Hrs'. injection Hrs' as <- ->.
  pose proof (create_assist_agent_cached cfg (inr m)
                (one_more_agent (one_more_agent w1)) Hc1 Hr) as Pa.
  assert (Hid : _config w' = Some cfg ∧ Agent.id a = Some "assist-agent"
                ∧ Agent.db a
                  = SqliteDb.mk (DatabaseConfig.db_file (AppConfig.database cfg)) None).
  { destruct (rag_fault (one_more_agent (one_more_agent w1))) as [e|] eqn:Hf;
      [destruct (is_Exception e); [|congruence]|];
      destruct Pa as (a' & Ha' & Haid & _ & Hadb & _);
      rewrite Ha in Ha'; injection Ha' as <- ->;
      (split; [cbn [one_more_agent _config]; by rewrite config_assist_reported|done]). }
  destruct Hid as (Hw' & Haid & Hadb).
  exists cfg, c, rs, a. rewrite Hag. simpl.
  rewrite Hcid, Hrid, Haid, Hcdb, Hrdb, Hadb. simpl.
  repeat (split; [done|]).
  intros Hnd. apply NoDup_cons in Hnd as [Hnotin _]. apply Hnotin. constructor.
Qed.

(** C2 (amended). Loading the configuration checks that at least one of
    the two API keys is set, whichever provider is selected.  In a process
    that has not loaded its configuration and whose two keys are both
    empty, loading fails with a [ValueError]; [get_model] and
    [create_runtime] then fail with that error and leave the world as it
    was, so no model client is created and no agent is constructed.
    Whenever loading succeeds, at least one of the two keys is
    non-empty. *)
Theorem credentials_checked_at_load (w : World) :
  _config w = None →
  (getenv (environ w) "OPENAI_API_KEY" "" = "" →
   getenv (environ w) "ANTHROPIC_API_KEY" "" = "" →
   ∃ msg : string,
     AppConfig.from_env py_int unicode_lower (environ w) = inl (ValueError msg)
     ∧ (∀ p m, get_model py_int unicode_lower p m w = (inl (ValueError msg), w))
     ∧ create_runtime py_int unicode_lower agno_middleware w = (inl (ValueError msg), w))
  ∧ (∀ cfg : AppConfig.t,
       AppConfig.from_env py_int unicode_lower (environ w) = inr cfg →
       OpenAIConfig.api_key (AppConfig.openai cfg) ≠ ""
       ∨ AnthropicConfig.api_key (AppConfig.anthropic cfg) ≠ "").
Proof.
  intros Hnone. split.
  - intros Ho Ha. eexists.
    assert (Hload : AppConfig.from_env py_int unicode_lower (environ w) = inl (ValueError
              (AppConfig.no_api_key_message
                 (lower unicode_lower (getenv (environ w) "MODEL_PROVIDER" "openai"))))).
    { unfold AppConfig.from_env, AppConfig.init. simpl. by rewrite Ho, Ha. }
    assert (Hget : get_config py_int unicode_lower w = (inl (ValueError
              (AppConfig.no_api_key_message
                 (lower unicode_lower (getenv (environ w) "MODEL_PROVIDER" "openai")))),
                     w)).
    { unfold get_config. unfold_monad. by rewrite Hnone, Hload. }
    split; [exact Hload|]. split.
    + intros p m. unfold get_model. by rewrite (bind_inl _ _ _ _ _ Hget).
    + unfold create_runtime. by rewrite (bind_inl _ _ _ _ _ Hget).
  - intros cfg. unfold AppConfig.from_env, AppConfig.init. simpl.
    destruct (getenv (environ w) "OPENAI_API_KEY" "") as [|c s] eqn:Ho;
      destruct (getenv (environ w) "ANTHROPIC_API_KEY" "") as [|c' s'] eqn:Ha;
      simpl; intros [= <-]; simpl; rewrite ?Ho, ?Ha; auto.
Qed.

End BackendProperties.



(** *** The configuration dictionary *)

(** X21. [to_dict] depends on each API key only through whether the key
    is empty and, when it is not, through its last four characters: two
    configurations that agree on every other field and whose keys agree
    on emptiness and on their last four characters have identical
    dictionaries. *)
Theorem to_dict_depends_on_key_suffix (c1 c2 : AppConfig.t) :
  AppConfig.name c1 = AppConfig.name c2 →
  AppConfig.version c1 = AppConfig.version c2 →
  AppConfig.description c1 = AppConfig.description c2 →
  AppConfig.model c1 = AppConfig.model c2 →
  AppConfig.database c1 = AppConfig.database c2 →
  AppConfig.agent c1 = AppConfig.agent c2 →
  AppConfig.server c1 = AppConfig.server c2 →
  truthy (OpenAIConfig.api_key (AppConfig.openai c1))
  = truthy (OpenAIConfig.api_key (AppConfig.openai c2)) →
  slice_last 4 (OpenAIConfig.api_key (AppConfig.openai c1))
  = slice_last 4 (OpenAIConfig.api_key (AppConfig.openai c2)) →
  truthy (AnthropicConfig.api_key (AppConfig.anthropic c1))
  = truthy (AnthropicConfig.api_key (AppConfig.anthropic c2)) →
  slice_last 4 (AnthropicConfig.api_key (AppConfig.anthropic c1))
  = slice_last 4 (AnthropicConfig.api_key (AppConfig.anthropic c2)) →
  AppConfig.to_dict c1 = AppConfig.to_dict c2.
Proof.
  intros Hn Hv Hd Hm Hdb Ha Hs Hto Hso Hta Hsa.
  unfold AppConfig.to_dict, AppConfig.masked.
  by rewrite Hn, Hv, Hd, Hm, Hdb, Ha, Hs, Hto, Hso, Hta, Hsa.
Qed.

(* ===================================================================== *)
(** ** Properties of the knowledge pipeline                               *)
(* ===================================================================== *)

Section PipelineProperties.

Variable Vec : Type.
Variable fetch : string → option string.
Variable split : string → list string.
Variable embed : string → option Vec.
Variable tokens : string → list string.
Variable write_fails : string → bool.

Local Abbreviation Pipeline := (Pipeline Vec).
Local Abbreviation write_chunks := (write_chunks embed tokens write_fails).
Local Abbreviation ingest := (ingest fetch split embed tokens write_fails).
Local Abbreviation load_documentation := (load_documentation fetch split embed tokens write_fails).

(** The chunk loop touches the entry of its own source only. *)
Lemma write_chunks_delete (source : string) (texts : list string) (p : Pipeline) :
  delete source (index (write_chunks source texts p).2) = delete source (index p).
Proof.
  revert p. induction texts as [|text rest IH]; intros p; simpl; [done|].
  destruct (embed text) as [v|]; [|done].
  destruct (write_fails text); [done|].
  rewrite IH. simpl. apply delete_insert_eq.
Qed.

(** The chunk loop keeps an entry that exists. *)
Lemma write_chunks_present (source : string) (texts : list string) (p : Pipeline) :
  is_Some (index p !! source) →
  is_Some (index (write_chunks source texts p).2 !! source).
Proof.
  revert p. induction texts as [|text rest IH]; intros p Hp; simpl; [done|].
  destruct (embed text) as [v|]; [|done].
  destruct (write_fails text); [done|].
  apply IH. simpl. rewrite lookup_insert_eq. eauto.
Qed.

(** Whether the chunk loop fails depends on the chunks only. *)
Lemma write_chunks_outcome (source : string) (texts : list string) (p p' : Pipeline) :
  (write_chunks source texts p).1 = (write_chunks source texts p').1.
Proof.
  revert p p'. induction texts as [|text rest IH]; intros p p'; simpl; [done|].
  destruct (embed text) as [v|]; [|done].
  destruct (write_fails text); [done|].
  apply IH.
Qed.

Lemma ingest_present (source : string) (p : Pipeline) :
  present p source = true → ingest source false p = (inr tt, p).
Proof. intros H. unfold ingest. by rewrite H. Qed.

(** A run on an absent source either fails and leaves the source absent,
    or succeeds and leaves it present. *)
Lemma ingest_absent (source : string) (p : Pipeline) :
  present p source = false →
  match (ingest source false p).1 with
  | inl _ =>
      index (ingest source false p).2 = delete source (index p)
  | inr _ => present (ingest source false p).2 source = true
  end.
Proof.
  intros H. unfold ingest. rewrite H. simpl.
  destruct (fetch source) as [raw|]; simpl.
  - destruct (write_chunks _ _ _) as [[e|[]] p1] eqn:Hw; simpl.
    + replace p1 with (write_chunks source (split raw)
        (mkPipeline (<[source:=[]]> (index p))
           (<[source:=Ingesting]> (states p)) (S (work p)))).2 by (by rewrite Hw).
      rewrite write_chunks_delete. simpl. apply delete_insert_eq.
    + unfold present. simpl.
      assert (Hs : is_Some (index p1 !! source)).
      { replace p1 with (write_chunks source (split raw)
          (mkPipeline (<[source:=[]]> (index p))
             (<[source:=Ingesting]> (states p)) (S (work p)))).2 by (by rewrite Hw).
        apply write_chunks_present. simpl. rewrite lookup_insert_eq. eauto. }
      by destruct Hs as [? ->].
  - apply delete_insert_eq.
Qed.

(** Whether a run on an absent source fails does not depend on the rest
    of the pipeline. *)
Lemma ingest_outcome (source : string) (p p' : Pipeline) :
  present p source = false → present p' source = false →
  (ingest source false p).1 = (ingest source false p').1.
Proof.
  intros H H'. unfold ingest. rewrite H, H'. simpl.
  destruct (fetch source) as [raw|]; [|done].
  pose proof (write_chunks_outcome source (split raw)
    (mkPipeline (<[source:=[]]> (index p))
       (<[source:=Ingesting]> (states p)) (S (work p)))
    (mkPipeline (<[source:=[]]> (index p'))
       (<[source:=Ingesting]> (states p')) (S (work p')))) as Hout.
  destruct (write_chunks _ _ _) as [[e|[]] p1];
    destruct (write_chunks _ _ _) as [[e'|[]] p1']; simpl in *; congruence.
Qed.

Lemma ingest_twice_index (source : string) (p : Pipeline) :
  index (ingest source false (ingest source false p).2).2
  = index (ingest source false p).2.
Proof.
  destruct (present p source) eqn:Hp.
  { rewrite (ingest_present _ _ Hp). simpl. by rewrite (ingest_present _ _ Hp). }
  pose proof (ingest_absent source p Hp) as H1.
  destruct (ingest source false p) as [[e|[]] p1] eqn:Hrun; simpl in *.
  - assert (Hp1 : present p1 source = false).
    { unfold present. by rewrite H1, lookup_delete_eq. }
    pose proof (ingest_absent source p1 Hp1) as H2.
    pose proof (ingest_outcome source p p1 Hp Hp1) as Hout.
    rewrite Hrun in Hout. simpl in Hout. rewrite <- Hout in H2.
    by rewrite H2, H1, delete_delete_eq.
  - by rewrite ingest_present.
Qed.

Lemma load_documentation_pipeline (l : Loader Vec) :
  kb_fault (load_documentation l).2 = kb_fault l
  ∧ pipeline (load_documentation l).2
    = match kb_fault l with
      | Some _ => pipeline l
      | None => (ingest DOCS_URL false (pipeline l)).2
      end.
Proof.
  unfold load_documentation, add_content, sys_exit, echo.
  cbn [kb_fault pipeline printed negb].
  destruct (kb_fault l) as [e|] eqn:Hf; [cbn; done|].
  destruct (ingest DOCS_URL false (pipeline l)) as [[e|[]] p1]; cbn; [|done].
  destruct e; cbn; done.
Qed.

(** C8. Running [ingest] twice with [force = false] leaves the index as
    one run leaves it, chunk for chunk with the same embeddings; a source
    that is already present makes the run a no-op; after a first run that
    succeeded, the second run returns the pipeline unchanged, its work
    counter included.  The same holds for the loader script, which ingests
    the documentation with [skip_if_exists=True]. *)
Theorem ingest_idempotent (source : string) (p : Pipeline) (l : Loader Vec) :
  index (ingest source false (ingest source false p).2).2
  = index (ingest source false p).2
  ∧ (present p source = true → ingest source false p = (inr tt, p))
  ∧ ((ingest source false p).1 = inr tt →
     ingest source false (ingest source false p).2
     = (inr tt, (ingest source false p).2))
  ∧ index (pipeline (load_documentation (load_documentation l).2).2)
    = index (pipeline (load_documentation l).2).
Proof.
  split; [apply ingest_twice_index|]. split; [apply ingest_present|]. split.
  - intros Hok. apply ingest_present.
    destruct (present p source) eqn:Hp.
    + by rewrite ingest_present.
    + pose proof (ingest_absent source p Hp) as H1. by rewrite Hok in H1.
  - destruct (load_documentation_pipeline l) as [Hf Hp].
    destruct (load_documentation_pipeline (load_documentation l).2) as [_ Hp'].
    rewrite Hp', Hf, Hp. destruct (kb_fault l); [done|]. apply ingest_twice_index.
Qed.

End PipelineProperties.

(* ===================================================================== *)
(** ** The properties at concrete inputs                                  *)
(* ===================================================================== *)

Lemma load_env_openai :
  get_config int_of_decimal no_unicode (fresh_world env_openai None)
  = (inr config_openai, world_openai None).
Proof. vm_compute. reflexivity. Defined.

Lemma resolve_env_openai :
  get_model int_of_decimal no_unicode None None (fresh_world env_openai None)
  = (inr (OpenAIChat "gpt-4" "sk-test-1234"), world_openai None).
Proof. vm_compute. reflexivity. Defined.

(** C1 at a call with an empty tool list: the descriptor's tool list is
    empty and its model is the configured one. *)
Lemma build_override_or_default_witness :
  get_config int_of_decimal no_unicode (fresh_world env_openai None)
  = (inr config_openai, world_openai None)
  ∧ ∃ d : Agent.t,
      build int_of_decimal no_unicode required_empty_key overrides_empty_lists
            (fresh_world env_openai None)
      = (inr d, one_more_agent (world_openai None))
      ∧ Agent.model d = OpenAIChat "gpt-4" "sk-test-1234"
      ∧ Agent.tools d = Some []
      ∧ Agent.add_dependencies_to_context d = Some false
      ∧ Agent.add_memories_to_context d = Some true.
Proof.
  split; [exact load_env_openai|].
  destruct (build_override_or_default int_of_decimal no_unicode required_empty_key
              overrides_empty_lists _ _ _ (OpenAIChat "gpt-4" "sk-test-1234")
              load_env_openai (λ _, resolve_env_openai))
    as (d & Hb & _ & _ & _ & Hm & _ & Ht & _ & Hf2 & Hf3 & _).
  exists d. repeat split; assumption.
Defined.

(** C2, counterexample: with only the Anthropic key set and the provider
    left at "openai", loading succeeds although the selected provider's
    key is empty; [get_model] returns an OpenAI client with the empty key
    and [create_runtime] constructs all three agents. *)
Lemma selected_provider_key_empty_yet_loaded :
  ∃ (cfg : AppConfig.t) (rt : AgentOS.t) (w' : World),
    AppConfig.from_env int_of_decimal no_unicode env_anthropic_key_only = inr cfg
    ∧ ModelConfig.provider (AppConfig.model cfg) = "openai"
    ∧ OpenAIConfig.api_key (AppConfig.openai cfg) = ""
    ∧ (get_model int_of_decimal no_unicode None None
         (fresh_world env_anthropic_key_only None)).1
      = inr (OpenAIChat "gpt-4" "")
    ∧ create_runtime int_of_decimal no_unicode agno_cors (fresh_world
        env_anthropic_key_only None)
      = (inr rt, w')
    ∧ length (AgentOS.agents rt) = 3
    ∧ agents_constructed w' = 3.
Proof.
  eexists _, _, _. split; [vm_compute; reflexivity|].
  split; [reflexivity|]. split; [reflexivity|].
  split; [vm_compute; reflexivity|].
  split; [vm_compute; reflexivity|]. split; reflexivity.
Qed.

(** C2 (amended) with no API key at all: assembly stops at the
    configuration and constructs nothing. *)
Lemma credentials_checked_at_load_witness :
  _config (fresh_world env_no_keys None) = None
  ∧ ∃ msg : string,
      create_runtime int_of_decimal no_unicode agno_cors (fresh_world env_no_keys None)
      = (inl (ValueError msg), fresh_world env_no_keys None).
Proof.
  split; [reflexivity|].
  destruct (credentials_checked_at_load int_of_decimal no_unicode agno_cors
              (fresh_world env_no_keys None) eq_refl) as [Hfail _].
  destruct (Hfail eq_refl eq_refl) as (msg & _ & _ & Hrt).
  exists msg. exact Hrt.
Defined.

(** C3, counterexample: the provider value [""] is outside the supported
    set and [get_model] still returns a client, that of the configured
    provider; and for the unsupported value ["azure"] the error raised is
    a [ValueError]. *)
Lemma empty_provider_resolves_and_error_is_ValueError :
  (get_model int_of_decimal no_unicode (Some "") None (fresh_world env_openai None)).1
  = inr (OpenAIChat "gpt-4" "sk-test-1234")
  ∧ (get_model int_of_decimal no_unicode (Some "azure") None (fresh_world env_openai
      None)).1
    = inl (ValueError ("❌ Unsupported provider: azure" ++ nl
                       ++ "   Supported: 'openai', 'anthropic'")).
Proof. split; vm_compute; reflexivity. Qed.

(** C3 (amended) at the providers "azure" and "anthropic". *)
Lemma get_model_resolution_witness :
  get_config int_of_decimal no_unicode (fresh_world env_openai None)
  = (inr config_openai, world_openai None)
  ∧ get_model int_of_decimal no_unicode (Some "azure") None (fresh_world env_openai None)
    = (inl (ValueError ("❌ Unsupported provider: azure" ++ nl
                        ++ "   Supported: 'openai', 'anthropic'")),
       world_openai None)
  ∧ get_model int_of_decimal no_unicode (Some "anthropic") (Some "claude-3-opus")
              (fresh_world env_openai None)
    = (inr (Claude "claude-3-opus" ""), world_openai None).
Proof.
  split; [exact load_env_openai|]. split.
  - apply (get_model_resolution int_of_decimal no_unicode (Some "azure") None _ _ _
             load_env_openai); simpl; discriminate.
  - apply (get_model_resolution int_of_decimal no_unicode (Some "anthropic")
             (Some "claude-3-opus") _ _ _ load_env_openai). reflexivity.
Defined.

(** C4, counterexample: [build] with the empty store key returns a
    descriptor whose store is keyed by the empty string, and a second
    [build] with the same key against the same backing file returns the
    same descriptor. *)
Lemma build_empty_and_duplicate_store_key :
  ∃ d : Agent.t,
    Required.db_table required_empty_key = ""
    ∧ build int_of_decimal no_unicode required_empty_key Overrides.none
            (fresh_world env_openai None)
      = (inr d, one_more_agent (world_openai None))
    ∧ Agent.db d = SqliteDb.mk "agno.db" (Some "")
    ∧ build int_of_decimal no_unicode required_empty_key Overrides.none
            (one_more_agent (world_openai None))
      = (inr d, one_more_agent (one_more_agent (world_openai None))).
Proof.
  eexists. split; [reflexivity|].
  split; [vm_compute; reflexivity|].
  split; [reflexivity|]. vm_compute. reflexivity.
Qed.

(** C4 (amended) at the empty store key. *)
Lemma build_accepts_any_store_key_witness :
  get_config int_of_decimal no_unicode (fresh_world env_openai None)
  = (inr config_openai, world_openai None)
  ∧ ∃ d : Agent.t,
      build int_of_decimal no_unicode required_empty_key Overrides.none
            (fresh_world env_openai None)
      = (inr d, one_more_agent (world_openai None))
      ∧ Agent.db d = SqliteDb.mk "agno.db" (Some "")
      ∧ build int_of_decimal no_unicode required_empty_key Overrides.none
              (one_more_agent (world_openai None))
        = (inr d, one_more_agent (one_more_agent (world_openai None))).
Proof.
  split; [exact load_env_openai|].
  destruct (build_accepts_any_store_key int_of_decimal no_unicode required_empty_key
              Overrides.none _ _ _ (OpenAIChat "gpt-4" "sk-test-1234")
              load_env_openai (λ _, resolve_env_openai))
    as (d & Hb & Hdb & Hagain).
  exists d. split; [exact Hb|]. split; [exact (Hdb eq_refl)|exact Hagain].
Defined.

(** C5 with a vector database that cannot be reached. *)
Lemma assist_agent_survives_knowledge_failure_witness :
  rag_fault (fresh_world env_openai (Some lancedb_unavailable))
  = Some lancedb_unavailable
  ∧ is_Exception lancedb_unavailable = true
  ∧ ∃ (d : Agent.t) (rt : AgentOS.t) (c rs : Agent.t) (w' : World),
      Agent.knowledge d = None
      ∧ create_runtime int_of_decimal no_unicode agno_cors
          (fresh_world env_openai (Some lancedb_unavailable))
        = (inr rt, w')
      ∧ AgentOS.agents rt = [c; rs; d].
Proof.
  split; [reflexivity|]. split; [reflexivity|].
  destruct (assist_agent_survives_knowledge_failure int_of_decimal no_unicode agno_cors
              (fresh_world env_openai (Some lancedb_unavailable))
              (world_openai (Some lancedb_unavailable))
              (OpenAIChat "gpt-4" "sk-test-1234") lancedb_unavailable)
    as (d & _ & _ & Hk & rt & c & rs & w' & Hrt & Hag).
  - vm_compute. reflexivity.
  - reflexivity.
  - reflexivity.
  - exists d, rt, c, rs, w'. split; [exact Hk|]. split; [exact Hrt|exact Hag].
Defined.

(** C6 on a freshly started process with an OpenAI key. *)
Lemma runtime_agents_share_one_store_witness :
  ∃ (rt : AgentOS.t) (w' : World),
    create_runtime int_of_decimal no_unicode agno_cors (fresh_world env_openai None)
    = (inr rt, w')
    ∧ Agent.db <$> AgentOS.agents rt
      = [SqliteDb.mk "agno.db" None; SqliteDb.mk "agno.db" None;
         SqliteDb.mk "agno.db" None].
Proof.
  destruct (create_runtime int_of_decimal no_unicode agno_cors
              (fresh_world env_openai None)) as [[e|rt] w'] eqn:Hrun.
  { vm_compute in Hrun. discriminate Hrun. }
  exists rt, w'. split; [reflexivity|].
  destruct (runtime_agents_share_one_store int_of_decimal no_unicode agno_cors
              _ _ _ Hrun)
    as (cfg & c & rs & a & Hcfg & Hag & _ & Hc & Hrs & Ha & _).
  assert (Hw' : _config w' = Some config_openai).
  { vm_compute in Hrun. injection Hrun as _ <-. reflexivity. }
  rewrite Hw' in Hcfg. injection Hcfg as <-.
  rewrite Hag. simpl. rewrite Ha, Hrs, Hc. reflexivity.
Defined.

(** C7 at a process whose only setting is an OpenAI key: the conversation
    agent is constructed without any tool (the [tools] argument is not
    passed), with no knowledge and a history window of 3, while the
    research agent next to it does receive the MCP tools of the
    configuration. *)
Theorem conversation_agent_has_no_tools :
  ∃ (d r : Agent.t) (w' w'' : World),
    create_conversation_agent int_of_decimal no_unicode (fresh_world env_openai None)
    = (inr d, w')
    ∧ Agent.tools d = None
    ∧ Agent.knowledge d = None
    ∧ Agent.num_history_runs d = Some 3%Z
    ∧ create_research_agent int_of_decimal no_unicode (fresh_world env_openai None)
      = (inr r, w'')
    ∧ Agent.tools r
      = Some [MCP (MCPTools.mk "streamable-http" "https://docs.agno.com/mcp")].
Proof.
  eexists _, _, _, _. split; [vm_compute; reflexivity|].
  split; [reflexivity|]. split; [reflexivity|]. split; [reflexivity|].
  split; [vm_compute; reflexivity|]. reflexivity.
Qed.

(** C8 on an empty index: the first run succeeds and the second one
    changes nothing. *)
Lemma ingest_idempotent_witness :
  (ingest demo_fetch demo_split demo_embed demo_tokens demo_write_fails
          DOCS_URL false empty_pipeline).1 = inr tt
  ∧ ingest demo_fetch demo_split demo_embed demo_tokens demo_write_fails
           DOCS_URL false
           (ingest demo_fetch demo_split demo_embed demo_tokens demo_write_fails
                   DOCS_URL false empty_pipeline).2
    = (inr tt,
       (ingest demo_fetch demo_split demo_embed demo_tokens demo_write_fails
               DOCS_URL false empty_pipeline).2).
Proof.
  assert (Hok : (ingest demo_fetch demo_split demo_embed demo_tokens
                        demo_write_fails DOCS_URL false empty_pipeline).1 = inr tt)
    by reflexivity.
  split; [exact Hok|].
  exact (proj1 (proj2 (proj2 (ingest_idempotent nat demo_fetch demo_split
                                 demo_embed demo_tokens demo_write_fails
                                 DOCS_URL empty_pipeline fresh_loader))) Hok).
Defined.

(** C9 at a call with an empty tool list and an empty user list. *)
Lemma empty_override_get_model_vs_build_witness :
  get_model int_of_decimal no_unicode (Some "") (Some "") (fresh_world env_openai None)
  = get_model int_of_decimal no_unicode None None (fresh_world env_openai None)
  ∧ ∃ d : Agent.t,
      build int_of_decimal no_unicode required_empty_key overrides_empty_lists
            (fresh_world env_openai None)
      = (inr d, one_more_agent (world_openai None))
      ∧ Agent.tools d = Some []
      ∧ Agent.users d = Some [].
Proof.
  destruct (empty_override_get_model_vs_build int_of_decimal no_unicode (Some "") (Some "")
              required_empty_key overrides_empty_lists _ _ _
              (OpenAIChat "gpt-4" "sk-test-1234")
              load_env_openai (λ _, resolve_env_openai))
    as (Hp & Hm & d & Hb & Ht & Hu & _).
  split.
  - rewrite Hp. reflexivity.
  - exists d. split; [exact Hb|]. split; [exact (Ht eq_refl)|exact (Hu eq_refl)].
Defined.

(** C10 at a key of four characters: the dictionary of a configuration
    whose OpenAI key is "abcd" shows that key in full, after the three
    stars, although [to_dict] is there to display the configuration
    without exposing secrets. *)
Theorem to_dict_shows_short_key :
  OpenAIConfig.api_key (AppConfig.openai config_short_key) = "abcd"
  ∧ (py_getitem (AppConfig.to_dict config_short_key) "openai"
       ≫= λ d, py_getitem d "api_key")
    = Some (PStr ("***" ++ "abcd")).
Proof. split; reflexivity. Qed.

(** X21 at two keys that end in "1234". *)
Lemma to_dict_depends_on_key_suffix_witness :
  OpenAIConfig.api_key (AppConfig.openai config_openai)
  ≠ OpenAIConfig.api_key (AppConfig.openai config_openai_other_key)
  ∧ AppConfig.to_dict config_openai = AppConfig.to_dict config_openai_other_key.
Proof.
  split; [discriminate|].
  apply (to_dict_depends_on_key_suffix config_openai config_openai_other_key);
    reflexivity.
Defined.

(* ===================================================================== *)
(** ** Further properties of the configuration and of model resolution    *)
(* ===================================================================== *)

Lemma lower_ascii_idem (c : ascii) : lower_ascii (lower_ascii c) = lower_ascii c.
Proof. by destruct c as [[] [] [] [] [] [] [] []]. Qed.

Lemma lower_text_idem (s : string) : lower_text (lower_text s) = lower_text s.
Proof. induction s as [|c s IH]; simpl; [done|]. by rewrite lower_ascii_idem, IH. Qed.

Lemma lower_ascii_is_ascii (c : ascii) :
  (nat_of_ascii (lower_ascii c) <? 128)%nat = (nat_of_ascii c <? 128)%nat.
Proof. by destruct c as [[] [] [] [] [] [] [] []]. Qed.

Lemma lower_text_is_ascii (s : string) : is_ascii (lower_text s) = is_ascii s.
Proof.
  induction s as [|c s IH]; simpl; [done|]. by rewrite lower_ascii_is_ascii, IH.
Qed.

(** On ASCII text [lower] is the A-Z to a-z mapping, whose results are
    ASCII text that [lower] leaves alone. *)
Lemma lower_ascii_text (u : string → string) (s : string) :
  is_ascii s = true →
  lower u s = lower_text s
  ∧ is_ascii (lower u s) = true
  ∧ lower u (lower u s) = lower u s.
Proof.
  intros Hs. unfold lower. rewrite Hs, lower_text_is_ascii, Hs.
  by rewrite lower_text_idem.
Qed.

Lemma char_count_slice_last (n : nat) (s : string) :
  (char_count (slice_last n s) ≤ n)%nat.
Proof.
  induction s as [|c s IH]; simpl; [lia|].
  destruct (char_count s <? n)%nat eqn:E; [|exact IH].
  apply Nat.ltb_lt in E. simpl. destruct (is_continuation c); lia.
Qed.

Lemma char_count_app (p s : string) :
  char_count (p ++ s) = (char_count p + char_count s)%nat.
Proof.
  induction p as [|c p IH]; [done|].
  change (char_count (String c (p ++ s))
          = (char_count (String c p) + char_count s)%nat).
  cbn [char_count]. rewrite IH. lia.
Qed.

(** What precedes the last [n] characters does not reach the slice. *)
Lemma slice_last_app (n : nat) (p s : string) :
  (n ≤ char_count s)%nat → slice_last n (p ++ s) = slice_last n s.
Proof.
  intros Hlen. induction p as [|c p IH]; [done|].
  change (slice_last n (String c (p ++ s)) = slice_last n s).
  cbn [slice_last].
  destruct (char_count (p ++ s) <? n)%nat eqn:E; [|exact IH].
  apply Nat.ltb_lt in E. rewrite char_count_app in E. lia.
Qed.

Section ConfigurationProperties.

Variable py_int : string → option Z.
Variable unicode_lower : string → string.

Local Ltac unfold_monad :=
  unfold mbind, M_bind, mret, M_ret, raise, lift_result, read_config_global,
    write_config_global, read_environ, Agent_new, print in *.

(** X1. The configuration is loaded once: after a successful
    [get_config], a later call returns the same configuration and leaves
    the world alone, whatever the environment has become meanwhile. *)
Theorem get_config_loads_once (w w1 : World) (cfg : AppConfig.t)
    (env' : gmap string string) :
  get_config py_int unicode_lower w = (inr cfg, w1) →
  get_config py_int unicode_lower (set_environ env' w1) = (inr cfg, set_environ env' w1).
Proof.
  intros H. apply get_config_cached. simpl.
  by apply get_config_inr in H as [? _].
Qed.

(** X2. [reset_config] followed by [get_config] discards the cached
    configuration and loads the current environment again: the result is
    that of [AppConfig.from_env], cached when it is a configuration and
    not cached when it is an error. *)
Theorem reset_config_reloads (w : World) :
  (reset_config ≫= λ _, get_config py_int unicode_lower) w
  = match AppConfig.from_env py_int unicode_lower (environ w) with
    | inr c =>
        (inr c, mkWorld (environ w) (Some c) (rag_fault w) (stdout w)
                        (agents_constructed w))
    | inl e =>
        (inl e, mkWorld (environ w) None (rag_fault w) (stdout w)
                        (agents_constructed w))
    end.
Proof.
  unfold reset_config, get_config. unfold_monad. simpl.
  by destruct (AppConfig.from_env py_int unicode_lower (environ w)).
Qed.

(** X3. [get_config] fails exactly when no configuration is cached and
    both API keys of the environment are empty; the error is then the
    "No API key configured" [ValueError] naming the lower-cased provider,
    and the world is left as it was, so nothing is cached. *)
Theorem get_config_fails_iff (w : World) :
  ((∃ e w1, get_config py_int unicode_lower w = (inl e, w1))
   ↔ _config w = None
     ∧ getenv (environ w) "OPENAI_API_KEY" "" = ""
     ∧ getenv (environ w) "ANTHROPIC_API_KEY" "" = "")
  ∧ ∀ e w1,
      get_config py_int unicode_lower w = (inl e, w1) →
      w1 = w
      ∧ e = ValueError (AppConfig.no_api_key_message
                          (lower unicode_lower (getenv (environ w) "MODEL_PROVIDER"
                              "openai"))).
Proof.
  assert (Hload : ∀ e, AppConfig.from_env py_int unicode_lower (environ w) = inl e →
            getenv (environ w) "OPENAI_API_KEY" "" = ""
            ∧ getenv (environ w) "ANTHROPIC_API_KEY" "" = ""
            ∧ e = ValueError (AppConfig.no_api_key_message
                    (lower unicode_lower (getenv (environ w) "MODEL_PROVIDER" "openai")))).
  { intros e. unfold AppConfig.from_env, AppConfig.init. simpl.
    destruct (getenv (environ w) "OPENAI_API_KEY" "") as [|c s];
      destruct (getenv (environ w) "ANTHROPIC_API_KEY" "") as [|c' s'];
      simpl; intros [= <-]; done. }
  split; [split|].
  - intros (e & w1 & H). apply get_config_inl in H as (_ & Hnone & Hfrom).
    apply Hload in Hfrom as (? & ? & _). done.
  - intros (Hnone & Ho & Ha). eexists _, w.
    unfold get_config. unfold_monad. rewrite Hnone.
    unfold AppConfig.from_env, AppConfig.init. simpl. rewrite Ho, Ha. simpl.
    reflexivity.
  - intros e w1 H. apply get_config_inl in H as (-> & _ & Hfrom).
    apply Hload in Hfrom as (_ & _ & ->). done.
Qed.

(** X4. [AppConfig(...)] prefers what it is given to the environment: a
    supplied OpenAI sub-configuration with a non-empty key passes the key
    validation whatever the environment holds and is kept as given; and
    with no sub-configuration supplied the constructor is
    [AppConfig.from_env]. *)
Theorem init_supplied_key_passes (env : gmap string string) (o : OpenAIConfig.t)
    (a : option AnthropicConfig.t) (m : option ModelConfig.t)
    (d : option DatabaseConfig.t) (ag : option AgentConfig.t)
    (s : option ServerConfig.t) :
  truthy (OpenAIConfig.api_key o) = true →
  (∃ cfg, AppConfig.init py_int unicode_lower env (Some o) a m d ag s = inr cfg
          ∧ AppConfig.openai cfg = o)
  ∧ AppConfig.init py_int unicode_lower env None None None None None None
    = AppConfig.from_env py_int unicode_lower env.
Proof.
  intros Hkey. split; [|reflexivity].
  unfold AppConfig.init. simpl. rewrite Hkey. simpl. eauto.
Qed.

(** X5. The provider of [ModelConfig.from_env] is the lower-cased
    MODEL_PROVIDER, "openai" when the variable is unset.  For an ASCII
    value it is that value with A-Z mapped to a-z: ASCII text that
    [lower] leaves unchanged.  Two values of MODEL_PROVIDER with the same
    lower-casing load the same model configuration; and with MODEL_ID
    unset the model id is the Claude default exactly for the provider
    "anthropic" and "gpt-4" for every other provider, known or not. *)
Theorem model_config_provider_lowercase (env : gmap string string) (v v' : string) :
  (env !! "MODEL_PROVIDER" = None →
   ModelConfig.provider (ModelConfig.from_env unicode_lower env) = "openai")
  ∧ (env !! "MODEL_PROVIDER" = Some v →
     is_ascii v = true →
     ModelConfig.provider (ModelConfig.from_env unicode_lower env) = lower_text v
     ∧ is_ascii (ModelConfig.provider (ModelConfig.from_env unicode_lower env)) = true
     ∧ lower unicode_lower (ModelConfig.provider (ModelConfig.from_env unicode_lower env))
       = ModelConfig.provider (ModelConfig.from_env unicode_lower env))
  ∧ (lower unicode_lower v = lower unicode_lower v' →
     ModelConfig.from_env unicode_lower (<["MODEL_PROVIDER" := v]> env)
     = ModelConfig.from_env unicode_lower (<["MODEL_PROVIDER" := v']> env))
  ∧ (env !! "MODEL_ID" = None →
     ModelConfig.model_id (ModelConfig.from_env unicode_lower env)
     = if String.eqb (ModelConfig.provider (ModelConfig.from_env unicode_lower env))
                     "anthropic"
       then "claude-3-5-sonnet-20241022" else "gpt-4").
Proof.
  unfold ModelConfig.from_env. simpl. split; [|split; [|split]].
  - intros Hnone. unfold getenv. by rewrite Hnone.
  - intros Hv Hascii. unfold getenv. rewrite Hv.
    by apply lower_ascii_text.
  - intros Hv. unfold getenv. rewrite !lookup_insert_eq.
    rewrite !lookup_insert_ne by done. by rewrite Hv.
  - intros Hid. unfold getenv at 1. rewrite Hid.
    unfold ModelConfig.default_models_get.
    destruct (String.eqb _ "openai") eqn:E; [|done].
    apply String.eqb_eq in E. by rewrite E.
Qed.

(** X6. Only the API keys can make loading fail: as soon as one of them
    is non-empty, [AppConfig.from_env] returns a configuration, whatever
    PORT, RELOAD or MODEL_PROVIDER hold; its port is the parsed PORT, and
    the default 8000 when PORT does not parse; its provider is the
    lower-cased MODEL_PROVIDER, supported or not. *)
Theorem loading_needs_one_key_only (env : gmap string string) :
  getenv env "OPENAI_API_KEY" "" ≠ "" ∨ getenv env "ANTHROPIC_API_KEY" "" ≠ "" →
  ∃ cfg : AppConfig.t,
    AppConfig.from_env py_int unicode_lower env = inr cfg
    ∧ ServerConfig.port (AppConfig.server cfg)
      = default 8000%Z (py_int (getenv env "PORT" "8000"))
    ∧ ModelConfig.provider (AppConfig.model cfg)
      = lower unicode_lower (getenv env "MODEL_PROVIDER" "openai")
    ∧ OpenAIConfig.api_key (AppConfig.openai cfg) = getenv env "OPENAI_API_KEY" ""
    ∧ AnthropicConfig.api_key (AppConfig.anthropic cfg)
      = getenv env "ANTHROPIC_API_KEY" "".
Proof.
  intros Hkey. unfold AppConfig.from_env, AppConfig.init. simpl.
  assert (Hcond : negb (truthy (getenv env "OPENAI_API_KEY" ""))
                  && negb (truthy (getenv env "ANTHROPIC_API_KEY" "")) = false).
  { destruct (getenv env "OPENAI_API_KEY" ""), (getenv env "ANTHROPIC_API_KEY" "");
      simpl; try done. by destruct Hkey. }
  rewrite Hcond. eexists. split; [reflexivity|]. simpl.
  split; [|done]. by destruct (py_int _).
Qed.

(** X7. In the dictionary of [to_dict] an API key reads "***NOT SET"
    exactly when the key is empty: no non-empty key is rendered that
    way. *)
Theorem to_dict_not_set_iff_empty (c : AppConfig.t) :
  (py_getitem (AppConfig.to_dict c) "openai" ≫= λ d, py_getitem d "api_key")
  = Some (PStr (AppConfig.masked (OpenAIConfig.api_key (AppConfig.openai c))))
  ∧ (py_getitem (AppConfig.to_dict c) "anthropic" ≫= λ d, py_getitem d "api_key")
    = Some (PStr (AppConfig.masked (AnthropicConfig.api_key (AppConfig.anthropic c))))
  ∧ ∀ api_key : string, AppConfig.masked api_key = "***NOT SET" ↔ api_key = "".
Proof.
  split; [reflexivity|]. split; [reflexivity|].
  intros k. split; [|by intros ->].
  destruct k as [|ch k]; [done|]. unfold AppConfig.masked. cbn [truthy].
  assert (Hlen : (char_count (slice_last 4 (String ch k)) ≤ 4)%nat)
    by apply char_count_slice_last.
  set (x := slice_last 4 (String ch k)) in *.
  intros [= H]. cbv [String.append] in H. rewrite H in Hlen.
  vm_compute in Hlen. lia.
Qed.

(** X8. [to_dict] hides whatever precedes the last four characters of a
    key: putting any text in front of an OpenAI key of at least four
    characters leaves the dictionary as it is, so a key longer than four
    characters cannot be told from the dictionary. *)
Theorem to_dict_hides_long_keys (c : AppConfig.t) (prefix : string) :
  (4 ≤ char_count (OpenAIConfig.api_key (AppConfig.openai c)))%nat →
  AppConfig.to_dict
    (AppConfig.mk (AppConfig.name c) (AppConfig.version c) (AppConfig.description c)
       (OpenAIConfig.mk (prefix ++ OpenAIConfig.api_key (AppConfig.openai c)))
       (AppConfig.anthropic c) (AppConfig.model c) (AppConfig.database c)
       (AppConfig.agent c) (AppConfig.server c))
  = AppConfig.to_dict c.
Proof.
  destruct c as [n v d [k] a m db ag s]. simpl. intros Hlen.
  unfold AppConfig.to_dict, AppConfig.masked. simpl.
  rewrite (slice_last_app 4 prefix k Hlen).
  assert (Ht : truthy (prefix ++ k) = truthy k).
  { destruct k as [|ch k]; [simpl in Hlen; lia|].
    by destruct prefix. }
  by rewrite Ht.
Qed.

End ConfigurationProperties.

(* ===================================================================== *)
(** ** Further properties of model resolution, the builder and assembly   *)
(* ===================================================================== *)

Section AssemblyProperties.

Variable py_int : string → option Z.
Variable unicode_lower : string → string.
Variable agno_middleware : list Middleware.

Local Ltac unfold_monad :=
  unfold mbind, M_bind, mret, M_ret, raise, lift_result, read_config_global,
    write_config_global, read_environ, Agent_new, print in *.

(** [get_model] on a resolved provider outside the supported set. *)
Lemma get_model_unsupported (p m : option string) (w w1 : World) (cfg : AppConfig.t) :
  get_config py_int unicode_lower w = (inr cfg, w1) →
  opt_or p (ModelConfig.provider (AppConfig.model cfg)) ≠ "openai" →
  opt_or p (ModelConfig.provider (AppConfig.model cfg)) ≠ "anthropic" →
  get_model py_int unicode_lower p m w
  = (inl (ValueError (unsupported_provider_message
                        (opt_or p (ModelConfig.provider (AppConfig.model cfg))))), w1).
Proof.
  intros Hcfg H1 H2. unfold get_model. rewrite (bind_inr _ _ _ _ _ Hcfg).
  apply String.eqb_neq in H1, H2. by rewrite H1, H2.
Qed.

(** [get_model] on a resolved provider inside the supported set. *)
Lemma get_model_supported (p m : option string) (w w1 : World) (cfg : AppConfig.t) :
  get_config py_int unicode_lower w = (inr cfg, w1) →
  opt_or p (ModelConfig.provider (AppConfig.model cfg)) = "openai"
  ∨ opt_or p (ModelConfig.provider (AppConfig.model cfg)) = "anthropic" →
  ∃ m0, get_model py_int unicode_lower p m w = (inr m0, w1).
Proof.
  intros Hcfg H. unfold get_model. rewrite (bind_inr _ _ _ _ _ Hcfg).
  destruct H as [-> | ->]; simpl; eauto.
Qed.

(** X9. [get_provider_name] never fails once the configuration loads,
    and it answers "Unknown Provider" exactly for the provider arguments
    on which [get_model] raises. *)
Theorem provider_name_unknown_iff_unsupported (p m : option string) (w w1 : World)
    (cfg : AppConfig.t) :
  get_config py_int unicode_lower w = (inr cfg, w1) →
  (∃ name, get_provider_name py_int unicode_lower p w = (inr name, w1))
  ∧ (get_provider_name py_int unicode_lower p w = (inr "Unknown Provider", w1)
     ↔ ∃ e, get_model py_int unicode_lower p m w = (inl e, w1)).
Proof.
  intros Hcfg. unfold get_provider_name, get_model.
  rewrite !(bind_inr _ _ _ _ _ Hcfg).
  destruct (String.eqb _ "openai") eqn:E1;
    [|destruct (String.eqb _ "anthropic") eqn:E2]; unfold_monad.
  - split; [eauto|]. split; [done|]. by intros [e ?].
  - split; [eauto|]. split; [done|]. by intros [e ?].
  - split; [eauto|]. split; [eauto|done].
Qed.

(** X10. The provider is case-insensitive in the environment and
    case-sensitive as an argument: a spelling of a supported provider
    that is not all lower-case, given as MODEL_PROVIDER, loads as that
    provider, and given to [get_model] as the override, is rejected with
    the "Unsupported provider" [ValueError]. *)
Theorem provider_override_is_case_sensitive (v : string) (m : option string)
    (env : gmap string string) (w w1 : World) (cfg : AppConfig.t) :
  get_config py_int unicode_lower w = (inr cfg, w1) →
  lower unicode_lower v = "openai" ∨ lower unicode_lower v = "anthropic" →
  v ≠ lower unicode_lower v →
  ModelConfig.provider
    (ModelConfig.from_env unicode_lower (<["MODEL_PROVIDER" := v]> env)) = lower
        unicode_lower v
  ∧ get_model py_int unicode_lower (Some v) m w
    = (inl (ValueError (unsupported_provider_message v)), w1).
Proof.
  intros Hcfg Hlow Hne. split.
  - unfold ModelConfig.from_env, getenv. simpl. by rewrite lookup_insert_eq.
  - assert (Hv : opt_or (Some v) (ModelConfig.provider (AppConfig.model cfg)) = v).
    { destruct v; [by destruct Hlow|done]. }
    pose proof (get_model_unsupported (Some v) m w w1 cfg Hcfg) as H.
    rewrite Hv in H. apply H; intros ->; by apply Hne.
Qed.

(** X11. The provider is checked when a model is resolved, not when the
    configuration is loaded: with a loaded configuration whose provider is
    neither "openai" nor "anthropic", the conversation and research
    factories and [create_runtime] fail with the "Unsupported provider"
    [ValueError], and they do so before any agent is constructed or any
    line printed. *)
Theorem unsupported_provider_stops_assembly (w w1 : World) (cfg : AppConfig.t) :
  get_config py_int unicode_lower w = (inr cfg, w1) →
  ModelConfig.provider (AppConfig.model cfg) ≠ "openai" →
  ModelConfig.provider (AppConfig.model cfg) ≠ "anthropic" →
  let e := ValueError (unsupported_provider_message
                         (ModelConfig.provider (AppConfig.model cfg))) in
  create_conversation_agent py_int unicode_lower w = (inl e, w1)
  ∧ create_research_agent py_int unicode_lower w = (inl e, w1)
  ∧ create_runtime py_int unicode_lower agno_middleware w = (inl e, w1)
  ∧ agents_constructed w1 = agents_constructed w
  ∧ stdout w1 = stdout w.
Proof.
  intros Hcfg H1 H2 e.
  destruct (get_config_inr py_int unicode_lower _ _ _ Hcfg) as (Hc1 & _ & Hf & Hout & Hn).
  assert (Hm : ∀ w', _config w' = Some cfg →
                     get_model py_int unicode_lower None None w' = (inl e, w')).
  { intros w' Hw'. by apply (get_model_unsupported None None w' w' cfg);
      [apply get_config_cached|..]. }
  assert (Hconv : create_conversation_agent py_int unicode_lower w1 = (inl e, w1))
    by apply (create_conversation_agent_cached py_int unicode_lower cfg (inl e) w1 Hc1
        (Hm _ Hc1)).
  split; [|split; [|split; [|done]]].
  - unfold create_conversation_agent in *.
    rewrite (bind_inr _ _ _ _ _ Hcfg).
    by rewrite (bind_inr _ _ _ _ _ (get_config_cached py_int unicode_lower _ _ Hc1)) in
        Hconv.
  - pose proof (create_research_agent_cached py_int unicode_lower cfg (inl e) w1 Hc1 (Hm
      _ Hc1))
      as Hres.
    unfold create_research_agent in *.
    rewrite (bind_inr _ _ _ _ _ Hcfg).
    by rewrite (bind_inr _ _ _ _ _ (get_config_cached py_int unicode_lower _ _ Hc1)) in
        Hres.
  - rewrite (create_runtime_from py_int unicode_lower agno_middleware _ _ _ Hcfg).
      unfold create_runtime.
    rewrite (bind_inr _ _ _ _ _ (get_config_cached py_int unicode_lower _ _ Hc1)).
    by rewrite (bind_inl _ _ _ _ _ Hconv).
Qed.

(** X12. With a loaded configuration [build] has one way to fail: the
    model is not supplied and the configured provider is unsupported.  The
    error is then the "Unsupported provider" [ValueError] of [get_model],
    passed on unchanged, and no agent has been constructed.  In
    particular a supplied model makes [build] succeed whatever the
    provider is. *)
Theorem build_fails_iff (req : Required.t) (ov : Overrides.t) (w w1 : World)
    (cfg : AppConfig.t) :
  get_config py_int unicode_lower w = (inr cfg, w1) →
  ((∃ e w', build py_int unicode_lower req ov w = (inl e, w'))
   ↔ Overrides.model ov = None
     ∧ ModelConfig.provider (AppConfig.model cfg) ≠ "openai"
     ∧ ModelConfig.provider (AppConfig.model cfg) ≠ "anthropic")
  ∧ ∀ e w',
      build py_int unicode_lower req ov w = (inl e, w') →
      e = ValueError (unsupported_provider_message
                        (ModelConfig.provider (AppConfig.model cfg)))
      ∧ w' = w1.
Proof.
  intros Hcfg.
  assert (Hok : ∀ m0, (Overrides.model ov = None →
                       get_model py_int unicode_lower None None w = (inr m0, w1)) →
                ∀ e w', build py_int unicode_lower req ov w ≠ (inl e, w')).
  { intros m0 Hm e w' Hb.
    destruct (build_fields py_int unicode_lower req ov w w1 cfg m0 Hcfg Hm) as (d & Hd & _).
    congruence. }
  assert (Hbad : Overrides.model ov = None →
            ModelConfig.provider (AppConfig.model cfg) ≠ "openai" →
            ModelConfig.provider (AppConfig.model cfg) ≠ "anthropic" →
            build py_int unicode_lower req ov w
            = (inl (ValueError (unsupported_provider_message
                                  (ModelConfig.provider (AppConfig.model cfg)))), w1)).
  { intros Hnone H1 H2. unfold build. rewrite (bind_inr _ _ _ _ _ Hcfg), Hnone.
    apply bind_inl. rewrite <- (get_model_from py_int unicode_lower _ _ _ _ _ Hcfg).
    by apply (get_model_unsupported None None w w1 cfg). }
  assert (Hcases : (Overrides.model ov = None
                    ∧ ModelConfig.provider (AppConfig.model cfg) ≠ "openai"
                    ∧ ModelConfig.provider (AppConfig.model cfg) ≠ "anthropic")
                   ∨ ∃ m0, Overrides.model ov = None →
                           get_model py_int unicode_lower None None w = (inr m0, w1)).
  { destruct (Overrides.model ov) as [m|] eqn:Hmo; [right; by exists m|].
    destruct (decide (ModelConfig.provider (AppConfig.model cfg) = "openai")) as [E1|E1];
      [|destruct (decide (ModelConfig.provider (AppConfig.model cfg) = "anthropic"))
          as [E2|E2]].
    - right. destruct (get_model_supported None None w w1 cfg Hcfg) as [m0 H0];
        [by left|]. by exists m0.
    - right. destruct (get_model_supported None None w w1 cfg Hcfg) as [m0 H0];
        [by right|]. by exists m0.
    - by left. }
  split; [split|].
  - intros (e & w' & Hb). destruct Hcases as [?|[m0 Hm]]; [done|].
    by destruct (Hok m0 Hm e w').
  - intros (Hnone & H1 & H2). eexists _, _. by apply Hbad.
  - intros e w' Hb. destruct Hcases as [(Hnone & H1 & H2)|[m0 Hm]].
    + rewrite (Hbad Hnone H1 H2) in Hb. by injection Hb as <- <-.
    + by destruct (Hok m0 Hm e w').
Qed.

(** X13. A configuration that does not load stops every entry point in
    the same way: [get_model], [get_provider_name], [build], the three
    factories and [create_runtime] all raise the error of [get_config],
    unchanged, and leave the world as [get_config] left it, whatever
    their arguments (a [build] given a model and a store included). *)
Theorem config_failure_reaches_every_caller (w w1 : World) (e : exn)
    (p m : option string) (req : Required.t) (ov : Overrides.t) :
  get_config py_int unicode_lower w = (inl e, w1) →
  get_model py_int unicode_lower p m w = (inl e, w1)
  ∧ get_provider_name py_int unicode_lower p w = (inl e, w1)
  ∧ build py_int unicode_lower req ov w = (inl e, w1)
  ∧ create_conversation_agent py_int unicode_lower w = (inl e, w1)
  ∧ create_research_agent py_int unicode_lower w = (inl e, w1)
  ∧ create_assist_agent py_int unicode_lower w = (inl e, w1)
  ∧ create_runtime py_int unicode_lower agno_middleware w = (inl e, w1).
Proof.
  intros H. repeat split;
    [unfold get_model | unfold get_provider_name | unfold build
    | unfold create_conversation_agent | unfold create_research_agent
    | unfold create_assist_agent | unfold create_runtime];
    by rewrite (bind_inl _ _ _ _ _ H).
Qed.


(** X15. What is raised while the knowledge base is constructed and is
    not an [Exception] (a [KeyboardInterrupt], a [SystemExit]) is not
    swallowed: [create_assist_agent] raises it without printing or
    constructing anything, and [create_runtime] raises it after the
    conversation and research agents have been constructed. *)
Theorem knowledge_interrupt_aborts_assembly (w w1 : World) (m0 : Model) (x : exn) :
  get_model py_int unicode_lower None None w = (inr m0, w1) →
  rag_fault w = Some x →
  is_Exception x = false →
  create_assist_agent py_int unicode_lower w = (inl x, w1)
  ∧ create_runtime py_int unicode_lower agno_middleware w = (inl x, one_more_agent
      (one_more_agent w1)).
Proof.
  intros Hm Hx Hex.
  destruct (get_model_inr py_int unicode_lower _ _ _ _ _ Hm) as [cfg Hcfg].
  destruct (get_config_inr py_int unicode_lower _ _ _ Hcfg) as (Hc1 & _ & Hf1 & _).
  rewrite <- Hf1 in Hx.
  assert (Hr : ∀ w', _config w' = Some cfg →
                     get_model py_int unicode_lower None None w' = (inr m0, w')).
  { intros w' Hw'. eapply get_model_stable; eauto. }
  split.
  - rewrite (create_assist_agent_from py_int unicode_lower _ _ _ Hcfg).
    pose proof (create_assist_agent_cached py_int unicode_lower cfg (inr m0) w1 Hc1 Hr)
        as Pa.
    by rewrite Hx, Hex in Pa.
  - destruct (create_conversation_agent_cached py_int unicode_lower cfg (inr m0) w1 Hc1
      (Hr _ Hc1))
      as (c & Hc & _).
    destruct (create_research_agent_cached py_int unicode_lower cfg (inr m0)
        (one_more_agent w1) Hc1
                (Hr (one_more_agent w1) Hc1)) as (rs & Hrs & _).
    pose proof (create_assist_agent_cached py_int unicode_lower cfg (inr m0)
                  (one_more_agent (one_more_agent w1)) Hc1 Hr) as Pa.
    change (rag_fault (one_more_agent (one_more_agent w1))) with (rag_fault w1) in Pa.
    rewrite Hx, Hex in Pa.
    rewrite (create_runtime_from py_int unicode_lower agno_middleware _ _ _ Hcfg).
        unfold create_runtime.
    rewrite (bind_inr _ _ _ _ _ (get_config_cached py_int unicode_lower _ _ Hc1)).
    rewrite (bind_inr _ _ _ _ _ Hc), (bind_inr _ _ _ _ _ Hrs).
    by rewrite (bind_inl _ _ _ _ _ Pa).
Qed.

(** X16. An assist agent that has been created carries the knowledge base
    over the LanceDb table "agno_assist_knowledge" exactly when
    constructing it raised nothing, and carries no knowledge exactly when
    constructing it raised an [Exception]; it never has tools. *)
Theorem assist_knowledge_iff_no_fault (w w' : World) (d : Agent.t) :
  create_assist_agent py_int unicode_lower w = (inr d, w') →
  (Agent.knowledge d = Some (Knowledge.mk assist_vector_db) ↔ rag_fault w = None)
  ∧ (Agent.knowledge d = None ↔ ∃ x, rag_fault w = Some x ∧ is_Exception x = true)
  ∧ Agent.tools d = None.
Proof.
  intros H.
  destruct (get_config py_int unicode_lower w) as [[e|cfg] w1] eqn:Hcfg.
  { unfold create_assist_agent in H. by rewrite (bind_inl _ _ _ _ _ Hcfg) in H. }
  destruct (get_config_inr py_int unicode_lower _ _ _ Hcfg) as (Hc1 & _ & Hf1 & _).
  rewrite (create_assist_agent_from py_int unicode_lower _ _ _ Hcfg) in H.
  destruct (get_model_cached py_int unicode_lower cfg None None) as [r Hr].
  pose proof (create_assist_agent_cached py_int unicode_lower cfg r w1 Hc1 Hr) as Pa.
  rewrite Hf1 in Pa. destruct (rag_fault w) as [x|] eqn:Hx.
  - destruct (is_Exception x) eqn:Hex; [|congruence].
    destruct r as [e|m0]; [congruence|].
    destruct Pa as (a & Ha & _ & _ & _ & Hat & Hak & _).
    rewrite H in Ha. injection Ha as <- _. rewrite Hak, Hat.
    split; [done|]. split; [|done]. split; [eauto|done].
  - destruct r as [e|m0]; [congruence|].
    destruct Pa as (a & Ha & _ & _ & _ & Hat & Hak & _).
    rewrite H in Ha. injection Ha as <- _. rewrite Hak, Hat.
    split; [done|]. split; [|done]. split; [done|by intros (? & ? & _)].
Qed.

End AssemblyProperties.

(* ===================================================================== *)
(** ** Further properties of the loader script                            *)
(* ===================================================================== *)

Section LoaderProperties.

Variable Vec : Type.
Variable fetch : string → option string.
Variable split : string → list string.
Variable embed : string → option Vec.
Variable tokens : string → list string.
Variable write_fails : string → bool.

Local Abbreviation write_chunks := (write_chunks embed tokens write_fails).
Local Abbreviation ingest := (ingest fetch split embed tokens write_fails).
Local Abbreviation load_documentation :=
  (load_documentation fetch split embed tokens write_fails).

Lemma write_chunks_error (source : string) (texts : list string) (p : Pipeline Vec)
    (e : exn) :
  (write_chunks source texts p).1 = inl e → ∃ reason, e = IngestionError reason.
Proof.
  revert p. induction texts as [|text rest IH]; intros p; simpl; [done|].
  destruct (embed text) as [v|]; [|intros [= <-]; eauto].
  destruct (write_fails text); [intros [= <-]; eauto|]. apply IH.
Qed.

Lemma ingest_error (source : string) (force : bool) (p : Pipeline Vec) (e : exn) :
  (ingest source force p).1 = inl e → ∃ reason, e = IngestionError reason.
Proof.
  unfold ingest. destruct (present p source && negb force); [done|].
  destruct (fetch source) as [raw|]; [|intros [= <-]; eauto].
  destruct (write_chunks _ _ _) as [[e'|[]] p1] eqn:Hw; simpl; [|done].
  intros [= <-]. eapply (write_chunks_error source (split raw)).
  by rewrite Hw.
Qed.

(** X17. [load_documentation] constructs the knowledge base outside its
    [try] block: an exception raised there escapes as it is, after the
    five header lines only and with the index untouched.  Once the
    knowledge base is constructed, the script returns normally exactly
    when the ingestion of the documentation succeeds and ends in
    [SystemExit(1)] when the ingestion raises. *)
Theorem load_documentation_exits (l : Loader Vec) :
  (∀ e, kb_fault l = Some e →
        ∃ header,
          load_documentation l
          = (inl e, mkLoader (pipeline l) (kb_fault l) (printed l ++ header))
          ∧ length header = 5)
  ∧ (kb_fault l = None →
     (load_documentation l).1
     = match (ingest DOCS_URL false (pipeline l)).1 with
       | inr _ => inr tt
       | inl _ => inl (SystemExit 1)
       end).
Proof.
  unfold load_documentation, add_content, sys_exit, echo.
  cbn [kb_fault pipeline printed negb]. split.
  - intros e He. rewrite He. eexists. split; [reflexivity|done].
  - intros ->.
    destruct (ingest DOCS_URL false (pipeline l)) as [[e|[]] p1] eqn:Hi; [|done].
    destruct (ingest_error DOCS_URL false (pipeline l) e) as [reason ->];
      [by rewrite Hi|]. done.
Qed.

End LoaderProperties.

(* ===================================================================== *)
(** ** Properties of the logger factory                                   *)
(* ===================================================================== *)



(** The level names are upper-case. *)
Lemma nameToLevel_upper (u : string → string) (level : string) (n : Z) :
  nameToLevel level = Some n → upper u level = level.
Proof.
  unfold nameToLevel.
  destruct (String.eqb_spec level "CRITICAL") as [->|_]; [reflexivity|].
  destruct (String.eqb_spec level "FATAL") as [->|_]; [reflexivity|].
  destruct (String.eqb_spec level "ERROR") as [->|_]; [reflexivity|].
  destruct (String.eqb_spec level "WARN") as [->|_]; [reflexivity|].
  destruct (String.eqb_spec level "WARNING") as [->|_]; [reflexivity|].
  destruct (String.eqb_spec level "INFO") as [->|_]; [reflexivity|].
  destruct (String.eqb_spec level "DEBUG") as [->|_]; [reflexivity|].
  destruct (String.eqb_spec level "NOTSET") as [->|_]; [reflexivity|].
  discriminate.
Qed.

Section LoggerProperties.

Variable py_int : string → option Z.
Variable unicode_lower : string → string.
Variable unicode_upper : string → string.
Variable py_repr : string → string.

(** X18. A logger is set up once: after a successful [get_logger] the
    logger is registered under its name with at least one handler, and
    every later [get_logger] for that name returns the same logger and
    changes nothing, whatever level it is given, valid or not.  A logger
    that had no handler before has exactly one afterwards. *)
Theorem get_logger_sets_up_once (name : string) (level : option string)
    (ps ps1 : Process) (lg : Logger.t) :
  get_logger py_int unicode_lower unicode_upper py_repr name level ps = (inr lg, ps1) →
  loggers ps1 !! logger_key name = Some lg
  ∧ Logger.handlers lg ≠ []
  ∧ (∀ level', get_logger py_int unicode_lower unicode_upper py_repr name level' ps1 =
      (inr lg, ps1))
  ∧ (Logger.handlers (default (new_logger (logger_key name))
                              (loggers ps !! logger_key name)) = [] →
     length (Logger.handlers lg) = 1).
Proof.
  unfold get_logger.
  destruct (get_config py_int unicode_lower (world ps)) as [[e|cfg] w1] eqn:Hcfg; [done|].
  set (key := logger_key name).
  set (lg0 := default (new_logger key) (loggers ps !! key)).
  assert (Hagain : ∀ lg' reg, reg !! key = Some lg' → Logger.handlers lg' ≠ [] →
            ∀ level',
              get_logger py_int unicode_lower unicode_upper py_repr name level'
                  (mkProcess w1 reg)
              = (inr lg', mkProcess w1 reg)).
  { intros lg' reg Hreg Hh level'. unfold get_logger. simpl.
    rewrite (get_config_again py_int unicode_lower _ _ _ Hcfg). fold key. rewrite Hreg.
        simpl.
    destruct (Logger.handlers lg') eqn:Hl; [done|].
    by rewrite insert_id. }
  destruct (Logger.handlers lg0) as [|h hs] eqn:Hh.
  - destruct (checkLevel py_repr _) as [e|n]; [done|].
    intros [= <- <-]. cbn [loggers Logger.handlers].
    split; [by rewrite lookup_insert_eq|]. split; [done|]. split; [|done].
    intros level'. apply Hagain; [by rewrite lookup_insert_eq|done].
  - intros [= <- <-]. cbn [loggers].
    split; [by rewrite lookup_insert_eq|]. split; [by rewrite Hh|].
    split; [|by rewrite Hh].
    intros level'. apply Hagain; [by rewrite lookup_insert_eq|by rewrite Hh].
Qed.

(** X19. For a logger without handlers and a loaded configuration, the
    level is the [level] argument when it is a non-empty string and the
    upper-cased configured log level otherwise.  [get_logger] fails
    exactly when that level is not a level name of [logging]; it then
    raises the "Unknown level" [ValueError] and leaves the logger
    registered without a handler.  When it succeeds, the one handler
    writes to stdout and handler and logger both carry that level. *)
Theorem get_logger_level (name : string) (level : option string) (ps : Process)
    (cfg : AppConfig.t) (w1 : World) :
  get_config py_int unicode_lower (world ps) = (inr cfg, w1) →
  Logger.handlers (default (new_logger (logger_key name))
                           (loggers ps !! logger_key name)) = [] →
  let log_level :=
    opt_or level (upper unicode_upper (ServerConfig.log_level (AppConfig.server cfg))) in
  match nameToLevel log_level with
  | None =>
      ∃ ps1,
        get_logger py_int unicode_lower unicode_upper py_repr name level ps
        = (inl (ValueError ("Unknown level: " ++ py_repr log_level)), ps1)
        ∧ ∃ lg, loggers ps1 !! logger_key name = Some lg ∧ Logger.handlers lg = []
  | Some n =>
      ∃ lg ps1,
        get_logger py_int unicode_lower unicode_upper py_repr name level ps = (inr lg, ps1)
        ∧ Logger.level lg = n
        ∧ Logger.handlers lg
          = [Handler.mk "stdout" n "[%(levelname)s] %(name)s - %(message)s"
                        "%Y-%m-%d %H:%M:%S"]
  end.
Proof.
  intros Hcfg Hh log_level. unfold get_logger. rewrite Hcfg.
  cbv beta iota zeta. fold log_level. unfold checkLevel.
  destruct (nameToLevel log_level) as [n|].
  - eexists _, _. rewrite Hh. split; [reflexivity|]. done.
  - eexists. rewrite Hh. split; [reflexivity|].
    cbn [loggers]. rewrite lookup_insert_eq. eauto.
Qed.

(** X20. The log level is case-insensitive in the configuration and
    case-sensitive as an argument: for a spelling [v] of a level name
    that is not all upper-case and a logger without handlers,
    [get_logger(name, v)] raises the "Unknown level" [ValueError], whereas
    [get_logger(name)] under a configuration whose log level is [v] sets
    the logger up at that level. *)
Theorem get_logger_level_case (name v : string) (n : Z) (ps : Process)
    (cfg : AppConfig.t) (w1 : World) :
  get_config py_int unicode_lower (world ps) = (inr cfg, w1) →
  Logger.handlers (default (new_logger (logger_key name))
                           (loggers ps !! logger_key name)) = [] →
  nameToLevel (upper unicode_upper v) = Some n →
  v ≠ upper unicode_upper v →
  (∃ ps1, get_logger py_int unicode_lower unicode_upper py_repr name (Some v) ps
          = (inl (ValueError ("Unknown level: " ++ py_repr v)), ps1))
  ∧ (ServerConfig.log_level (AppConfig.server cfg) = v →
     ∃ lg ps1,
       get_logger py_int unicode_lower unicode_upper py_repr name None ps = (inr lg,
           ps1) ∧ Logger.level lg = n).
Proof.
  intros Hcfg Hh Hn Hne.
  assert (Hv : truthy v = true).
  { destruct v; [|done]. by destruct Hne. }
  assert (Hbad : nameToLevel v = None).
  { destruct (nameToLevel v) as [k|] eqn:Hk; [|done].
    apply (nameToLevel_upper unicode_upper) in Hk. by destruct Hne. }
  split.
  - unfold get_logger. rewrite Hcfg. cbv beta iota zeta. rewrite Hh. simpl. unfold str_or.
    rewrite Hv. unfold checkLevel. rewrite Hbad. eauto.
  - intros Hlvl. unfold get_logger. rewrite Hcfg. cbv beta iota zeta. rewrite Hh. simpl.
    rewrite Hlvl. unfold checkLevel. rewrite Hn. eexists _, _. eauto.
Qed.

End LoggerProperties.

(* ===================================================================== *)
(** ** The further properties at concrete inputs                          *)
(* ===================================================================== *)

(** X1 when every variable is removed from the environment after the
    first load. *)
Lemma get_config_loads_once_witness :
  get_config int_of_decimal no_unicode (fresh_world env_openai None)
  = (inr config_openai, world_openai None)
  ∧ get_config int_of_decimal no_unicode (set_environ env_no_keys (world_openai None))
    = (inr config_openai, set_environ env_no_keys (world_openai None)).
Proof.
  split; [exact load_env_openai|].
  exact (get_config_loads_once int_of_decimal no_unicode _ _ _ env_no_keys load_env_openai).
Defined.

(** X4 with a supplied OpenAI key and an environment without keys. *)
Lemma init_supplied_key_passes_witness :
  truthy (OpenAIConfig.api_key (OpenAIConfig.mk "sk-given")) = true
  ∧ ∃ cfg,
      AppConfig.init int_of_decimal no_unicode env_no_keys (Some (OpenAIConfig.mk
          "sk-given"))
                     None None None None None = inr cfg
      ∧ AppConfig.openai cfg = OpenAIConfig.mk "sk-given".
Proof.
  split; [reflexivity|].
  exact (proj1 (init_supplied_key_passes int_of_decimal no_unicode env_no_keys
                  (OpenAIConfig.mk "sk-given") None None None None None eq_refl)).
Defined.

(** X6 with a PORT that is no number. *)
Lemma loading_needs_one_key_only_witness :
  getenv (<["PORT" := "http"]> env_openai) "OPENAI_API_KEY" "" ≠ ""
  ∧ ∃ cfg : AppConfig.t,
      AppConfig.from_env int_of_decimal no_unicode (<["PORT" := "http"]> env_openai) =
          inr cfg
      ∧ ServerConfig.port (AppConfig.server cfg) = 8000%Z.
Proof.
  assert (Hkey : getenv (<["PORT" := "http"]> env_openai) "OPENAI_API_KEY" "" ≠ "")
    by (vm_compute; discriminate).
  split; [exact Hkey|].
  destruct (loading_needs_one_key_only int_of_decimal no_unicode (<["PORT" := "http"]>
      env_openai)
              (or_introl Hkey)) as (cfg & Hload & Hport & _).
  exists cfg. split; [exact Hload|]. rewrite Hport. reflexivity.
Defined.

(** X8 at the key "sk-test-1234" behind the prefix "sk-prod-9999". *)
Lemma to_dict_hides_long_keys_witness :
  (4 ≤ char_count (OpenAIConfig.api_key (AppConfig.openai config_openai)))%nat
  ∧ AppConfig.to_dict
      (AppConfig.mk APP_NAME APP_VERSION APP_DESCRIPTION
         (OpenAIConfig.mk ("sk-prod-9999" ++ "sk-test-1234"))
         (AnthropicConfig.mk "") (ModelConfig.mk "openai" "gpt-4")
         (DatabaseConfig.mk "agno.db" "vector.db")
         (AgentConfig.mk "gpt-4" "https://docs.agno.com/mcp")
         (ServerConfig.mk "0.0.0.0" 8000 true "info"))
    = AppConfig.to_dict config_openai.
Proof.
  assert (Hlen : (4 ≤ char_count
                        (OpenAIConfig.api_key (AppConfig.openai config_openai)))%nat)
    by (vm_compute; lia).
  split; [exact Hlen|].
  exact (to_dict_hides_long_keys config_openai "sk-prod-9999" Hlen).
Defined.

(** X9 at the provider arguments "azure" and "anthropic". *)
Lemma provider_name_unknown_iff_unsupported_witness :
  get_provider_name int_of_decimal no_unicode (Some "azure") (fresh_world env_openai None)
  = (inr "Unknown Provider", world_openai None)
  ∧ (∃ e, get_model int_of_decimal no_unicode (Some "azure") None (fresh_world
      env_openai None)
          = (inl e, world_openai None))
  ∧ ∃ name, get_provider_name int_of_decimal no_unicode (Some "anthropic")
                              (fresh_world env_openai None)
            = (inr name, world_openai None).
Proof.
  assert (Hname : get_provider_name int_of_decimal no_unicode (Some "azure")
                    (fresh_world env_openai None)
                  = (inr "Unknown Provider", world_openai None))
    by (vm_compute; reflexivity).
  split; [exact Hname|]. split.
  - exact (proj1 (proj2 (provider_name_unknown_iff_unsupported int_of_decimal no_unicode
                           (Some "azure") None _ _ _ load_env_openai)) Hname).
  - exact (proj1 (provider_name_unknown_iff_unsupported int_of_decimal no_unicode
                    (Some "anthropic") None _ _ _ load_env_openai)).
Defined.

(** X10 at the spelling "OpenAI". *)
Lemma provider_override_is_case_sensitive_witness :
  lower no_unicode "OpenAI" = "openai"
  ∧ ModelConfig.provider
      (ModelConfig.from_env no_unicode (<["MODEL_PROVIDER" := "OpenAI"]> env_openai))
    = "openai"
  ∧ get_model int_of_decimal no_unicode (Some "OpenAI") None (fresh_world env_openai None)
    = (inl (ValueError (unsupported_provider_message "OpenAI")), world_openai None).
Proof.
  split; [reflexivity|].
  exact (provider_override_is_case_sensitive int_of_decimal no_unicode "OpenAI" None
      env_openai
           _ _ _ load_env_openai (or_introl eq_refl) ltac:(discriminate)).
Defined.

(** X11 in a process whose MODEL_PROVIDER is "Azure". *)
Lemma unsupported_provider_stops_assembly_witness :
  ∃ (cfg : AppConfig.t) (w1 : World),
    get_config int_of_decimal no_unicode (fresh_world env_unknown_provider None) = (inr
        cfg, w1)
    ∧ ModelConfig.provider (AppConfig.model cfg) = "azure"
    ∧ create_runtime int_of_decimal no_unicode agno_cors (fresh_world
        env_unknown_provider None)
      = (inl (ValueError (unsupported_provider_message "azure")), w1)
    ∧ agents_constructed w1 = 0.
Proof.
  destruct (get_config int_of_decimal no_unicode (fresh_world env_unknown_provider None))
    as [[e|cfg] w1] eqn:Hcfg.
  { vm_compute in Hcfg. discriminate Hcfg. }
  assert (Hp : ModelConfig.provider (AppConfig.model cfg) = "azure").
  { vm_compute in Hcfg. injection Hcfg as <- _. reflexivity. }
  exists cfg, w1. split; [reflexivity|]. split; [exact Hp|].
  destruct (unsupported_provider_stops_assembly int_of_decimal no_unicode agno_cors _ _
      _ Hcfg)
    as (_ & _ & Hrt & Hn & _).
  - rewrite Hp. discriminate.
  - rewrite Hp. discriminate.
  - rewrite Hp in Hrt. split; [exact Hrt|exact Hn].
Defined.

(** X12 in a process whose MODEL_PROVIDER is "Azure": [build] fails
    without a model and succeeds with one. *)
Lemma build_fails_iff_witness :
  ∃ (cfg : AppConfig.t) (w1 : World),
    get_config int_of_decimal no_unicode (fresh_world env_unknown_provider None) = (inr
        cfg, w1)
    ∧ (∃ e w', build int_of_decimal no_unicode required_empty_key Overrides.none
                     (fresh_world env_unknown_provider None) = (inl e, w'))
    ∧ ¬ (∃ e w', build int_of_decimal no_unicode required_empty_key
                       (Overrides.mk (Some (Claude "claude-3-opus" "k")) None None
                          None None None None None None None None)
                       (fresh_world env_unknown_provider None) = (inl e, w')).
Proof.
  destruct (get_config int_of_decimal no_unicode (fresh_world env_unknown_provider None))
    as [[e|cfg] w1] eqn:Hcfg.
  { vm_compute in Hcfg. discriminate Hcfg. }
  assert (Hp : ModelConfig.provider (AppConfig.model cfg) = "azure").
  { vm_compute in Hcfg. injection Hcfg as <- _. reflexivity. }
  exists cfg, w1. split; [reflexivity|]. split.
  - apply (proj1 (build_fails_iff int_of_decimal no_unicode required_empty_key
      Overrides.none
                    _ _ _ Hcfg)).
    rewrite Hp. repeat split; discriminate.
  - intros Hfail.
    apply (proj1 (build_fails_iff int_of_decimal no_unicode required_empty_key _ _ _ _
        Hcfg))
      in Hfail as [Hnone _].
    discriminate Hnone.
Defined.

(** X13 in a process without any API key. *)
Lemma config_failure_reaches_every_caller_witness :
  ∃ e : exn,
    get_config int_of_decimal no_unicode (fresh_world env_no_keys None)
    = (inl e, fresh_world env_no_keys None)
    ∧ build int_of_decimal no_unicode required_empty_key
            (Overrides.mk (Some (Claude "claude-3-opus" "k"))
               (Some (SqliteDb.mk "other.db" None)) None None None None None None
               None None None)
            (fresh_world env_no_keys None)
      = (inl e, fresh_world env_no_keys None).
Proof.
  eexists. assert (Hcfg : get_config int_of_decimal no_unicode (fresh_world env_no_keys
      None)
                          = (inl _, fresh_world env_no_keys None))
    by (vm_compute; reflexivity).
  split; [exact Hcfg|].
  exact (proj1 (proj2 (proj2 (config_failure_reaches_every_caller int_of_decimal
      no_unicode agno_cors
                                 _ _ _ None None required_empty_key _ Hcfg)))).
Defined.


(** X15 when the user interrupts the construction of the knowledge
    base. *)
Lemma knowledge_interrupt_aborts_assembly_witness :
  rag_fault (fresh_world env_openai (Some KeyboardInterrupt)) = Some KeyboardInterrupt
  ∧ is_Exception KeyboardInterrupt = false
  ∧ create_runtime int_of_decimal no_unicode agno_cors (fresh_world env_openai (Some
      KeyboardInterrupt))
    = (inl KeyboardInterrupt,
       one_more_agent (one_more_agent (world_openai (Some KeyboardInterrupt)))).
Proof.
  split; [reflexivity|]. split; [reflexivity|].
  refine (proj2 (knowledge_interrupt_aborts_assembly int_of_decimal no_unicode agno_cors
                   (fresh_world env_openai (Some KeyboardInterrupt))
                   (world_openai (Some KeyboardInterrupt))
                   (OpenAIChat "gpt-4" "sk-test-1234") KeyboardInterrupt
                   _ eq_refl eq_refl)).
  vm_compute. reflexivity.
Defined.

(** X16 with a knowledge base that constructs. *)
Lemma assist_knowledge_iff_no_fault_witness :
  ∃ (d : Agent.t) (w' : World),
    create_assist_agent int_of_decimal no_unicode (fresh_world env_openai None) = (inr
        d, w')
    ∧ Agent.knowledge d = Some (Knowledge.mk assist_vector_db)
    ∧ Agent.tools d = None.
Proof.
  destruct (create_assist_agent int_of_decimal no_unicode (fresh_world env_openai None))
    as [[e|d] w'] eqn:Hrun.
  { vm_compute in Hrun. discriminate Hrun. }
  exists d, w'. split; [reflexivity|].
  destruct (assist_knowledge_iff_no_fault int_of_decimal no_unicode _ _ _ Hrun)
    as (Hk & _ & Ht).
  split; [exact (proj2 Hk eq_refl)|exact Ht].
Defined.

(** X18 for the logger "agents" in a fresh process: the second call, with
    a level that does not exist, returns the logger of the first. *)
Lemma get_logger_sets_up_once_witness :
  ∃ (lg : Logger.t) (ps1 : Process),
    get_logger int_of_decimal no_unicode no_unicode repr_plain "agents" None
        (fresh_process env_openai)
    = (inr lg, ps1)
    ∧ get_logger int_of_decimal no_unicode no_unicode repr_plain "agents" (Some
        "verbose") ps1
      = (inr lg, ps1)
    ∧ length (Logger.handlers lg) = 1.
Proof.
  destruct (get_logger int_of_decimal no_unicode no_unicode repr_plain "agents" None
              (fresh_process env_openai)) as [[e|lg] ps1] eqn:Hrun.
  { vm_compute in Hrun. discriminate Hrun. }
  exists lg, ps1. split; [reflexivity|].
  destruct (get_logger_sets_up_once int_of_decimal no_unicode no_unicode repr_plain _ _
      _ _ _ Hrun)
    as (_ & _ & Hagain & Hone).
  split; [apply Hagain|apply Hone; reflexivity].
Defined.

Lemma load_process_openai :
  get_config int_of_decimal no_unicode (world (fresh_process env_openai))
  = (inr config_openai, world_openai None).
Proof. exact load_env_openai. Defined.

(** X19 for the logger "agents" in a fresh process: the configured level
    "info" is set up as INFO, and the level "verbose" is refused. *)
Lemma get_logger_level_witness :
  (∃ lg ps1,
     get_logger int_of_decimal no_unicode no_unicode repr_plain "agents" None
         (fresh_process env_openai)
     = (inr lg, ps1)
     ∧ Logger.level lg = 20%Z)
  ∧ ∃ ps1,
      get_logger int_of_decimal no_unicode no_unicode repr_plain "agents" (Some "verbose")
                 (fresh_process env_openai)
      = (inl (ValueError "Unknown level: 'verbose'"), ps1).
Proof.
  split.
  - destruct (get_logger_level int_of_decimal no_unicode no_unicode repr_plain "agents" None
                (fresh_process env_openai) _ _ load_process_openai eq_refl)
      as (lg & ps1 & Hrun & Hlevel & _).
    exists lg, ps1. split; [exact Hrun|exact Hlevel].
  - destruct (get_logger_level int_of_decimal no_unicode no_unicode repr_plain "agents"
      (Some "verbose")
                (fresh_process env_openai) _ _ load_process_openai eq_refl)
      as (ps1 & Hrun & _).
    exists ps1. exact Hrun.
Defined.

(** X20 at the spelling "debug". *)
Lemma get_logger_level_case_witness :
  nameToLevel (upper no_unicode "debug") = Some 10%Z
  ∧ ∃ ps1,
      get_logger int_of_decimal no_unicode no_unicode repr_plain "agents" (Some "debug")
                 (fresh_process env_openai)
      = (inl (ValueError "Unknown level: 'debug'"), ps1).
Proof.
  split; [reflexivity|].
  destruct (get_logger_level_case int_of_decimal no_unicode no_unicode repr_plain
      "agents" "debug" 10
              (fresh_process env_openai) _ _ load_process_openai eq_refl eq_refl)
    as [(ps1 & Hrun) _].
  { discriminate. }
  exists ps1. exact Hrun.
Defined.
